(** * PostgreSQL data storage backend for RetrySpool: model and properties

    A shallow embedding of [backend.go] and [factory.go] (package [postgres]):
    the blob store ([StoreData], [GetDataReader], [DeleteData]), its two
    stream adapters ([bytesReadCloser], [postgresDataWriter]) and the factory.

    What lies outside the package is an explicit argument of the function that
    calls it:
    - the database behind [*sql.DB] is a value of type [DB]: the rows of the
      backend's table, keyed by the value of the primary key [message_id] as
      the column [VARCHAR(255)] holds it, together with the statements handed
      to the driver so far;
    - what becomes of a call of [ExecContext] is an [Answer]: the statement
      is executed by the server, or an error comes back before the driver got
      the statement, or after the server refused it without effect, or after
      it took effect all the same (a connection lost after the commit); a
      query, which has no effect, is answered by an [option error];
    - [time.Now()] is the argument [now], in the unit the timestamp columns
      hold;
    - the payload source (an [io.Reader] of the caller) is the finite list of
      the results of its [Read] calls.

    Of the server's own reasons to refuse a statement the model has the one
    the schema of [createTable] states, the length of [message_id]; the
    others (an identifier that is not text in the server's encoding, a
    payload beyond the limit of [BYTEA]) are among the errors of an
    [Answer]. *)

From Stdlib Require Import ZArith String Ascii List Lia.
From Stdlib.Strings Require Import Byte.
From stdpp Require Import gmap strings list fin_maps.

Local Open Scope string_scope.
Local Open Scope Z_scope.
Local Open Scope list_scope.

(** ** Errors *)

(** Go [error] values as far as the package makes or inspects them. *)
Inductive error : Type :=
  | EOF                                      (* io.EOF *)
  | ErrNoRows                                (* sql.ErrNoRows *)
  | foreignError (msg : string)              (* made by the driver or by the payload source *)
  | errorString (msg : string)               (* fmt.Errorf without the verb %w *)
  | wrapError (msg : string) (err : error).  (* fmt.Errorf with the verb %w *)

(** [err.Error()] *)
Definition Error (e : error) : string :=
  match e with
  | EOF => "EOF"
  | ErrNoRows => "sql: no rows in result set"
  | foreignError msg => msg
  | errorString msg => msg
  | wrapError msg _ => msg
  end.

(** [errors.Unwrap(err)] *)
Definition Unwrap (e : error) : option error :=
  match e with
  | wrapError _ err => Some err
  | _ => None
  end.

(** [fmt.Errorf(format)] for a format whose verbs are already filled in. *)
Definition Errorf (text : string) : error := errorString text.

(** [fmt.Errorf(format + "%w", err)]: [text] is what the format gives before
    the verb [%w]. *)
Definition Errorf_w (text : string) (err : error) : error :=
  wrapError (text +:+ Error err) err.

(** ** The table *)

Definition Time := Z.

(** One row of
    [CREATE TABLE IF NOT EXISTS %s (message_id VARCHAR(255) PRIMARY KEY,
     data BYTEA NOT NULL, size BIGINT NOT NULL, created ..., updated ...)];
    the key [message_id] is the key of the map that holds the row. *)
Record Row : Type := mkRow {
  data : list byte;
  size : Z;
  created : Time;
  updated : Time
}.

(** The three statements of the package, with their arguments [$1 ... $5]. *)
Inductive Stmt : Type :=
  | Upsert (table message_id : string) (d : list byte) (sz : Z) (c u : Time)
      (* INSERT INTO table (message_id, data, size, created, updated)
         VALUES ($1, $2, $3, $4, $5)
         ON CONFLICT (message_id) DO UPDATE SET data = EXCLUDED.data,
           size = EXCLUDED.size, updated = EXCLUDED.updated *)
  | SelectData (table message_id : string)
      (* SELECT data FROM table WHERE message_id = $1 *)
  | DeleteRow (table message_id : string).
      (* DELETE FROM table WHERE message_id = $1 *)

Record DB : Type := mkDB {
  rows : gmap string Row;
  issued : list Stmt
}.

(** *** The column [message_id VARCHAR(255)] *)

(** A byte that continues a character of several bytes ([10xxxxxx] in
    UTF-8, the encoding the driver sends). *)
Definition continuation (a : ascii) : bool :=
  match a with
  | Ascii _ _ _ _ _ _ false true => true
  | _ => false
  end.

(** The number of characters of a string given by its bytes. *)
Fixpoint characters (s : string) : nat :=
  match s with
  | EmptyString => O
  | String a s' => if continuation a then characters s' else S (characters s')
  end.

(** The first [n] characters of [s], and what follows them. *)
Fixpoint split_characters (n : nat) (s : string) : string * string :=
  match s with
  | EmptyString => (EmptyString, EmptyString)
  | String a s' =>
      if continuation a then
        let '(kept, excess) := split_characters n s' in (String a kept, excess)
      else
        match n with
        | O => (EmptyString, s)
        | S n' => let '(kept, excess) := split_characters n' s' in (String a kept, excess)
        end
  end.

Fixpoint all_spaces (s : string) : bool :=
  match s with
  | EmptyString => true
  | String a s' => Ascii.eqb a " " && all_spaces s'
  end.

Definition fits_varchar255 (s : string) : bool := (characters s <=? 255)%nat.

(** What the server stores when [s] is assigned to the column: [s] itself
    when it has at most 255 characters, its first 255 characters when all
    that follows them is spaces, and nothing otherwise (the assignment is
    refused). A comparison with the column, as in [WHERE message_id = $1],
    cuts nothing. *)
Definition varchar255 (s : string) : option string :=
  if fits_varchar255 s then Some s
  else
    let '(kept, excess) := split_characters 255 s in
    if all_spaces excess then Some kept else None.

(** The row an upsert leaves under its key: all five columns when the key is
    new, and on conflict [data], [size] and [updated] only. *)
Definition upsert_row (old : option Row) (d : list byte) (sz : Z) (c u : Time) : Row :=
  match old with
  | None => mkRow d sz c u
  | Some r => mkRow d sz (created r) u
  end.

(** What the server does with a statement: the table afterwards and the
    number of rows affected, or the error with which it refuses the
    statement, leaving the table as it is. *)
Definition run_stmt (q : Stmt) (t : gmap string Row) : gmap string Row * Z + error :=
  match q with
  | Upsert _ id d sz c u =>
      match varchar255 id with
      | Some key => inl (<[key := upsert_row (t !! key) d sz c u]> t, 1)
      | None => inr (foreignError "pq: value too long for type character varying(255)")
      end
  | SelectData _ _ => inl (t, 0)
  | DeleteRow _ id =>
      match t !! id with
      | Some _ => inl (delete id t, 1)
      | None => inl (t, 0)
      end
  end.

(** [sql.Result]: the count behind [RowsAffected()]. *)
Definition Result := Z.

(** What becomes of a call of [ExecContext]. *)
Inductive Answer : Type :=
  | Executed                  (* the server gets the statement and answers *)
  | NotSent (e : error)       (* [e] comes back before the driver gets the statement *)
  | Failed (e : error)        (* the driver gets it; [e] comes back and nothing has changed *)
  | FailedAfter (e : error).  (* the statement takes effect, and yet [e] comes back *)

(** [db.ExecContext(ctx, query, args...)] under the answer [drv]. *)
Definition ExecContext (drv : Answer) (q : Stmt) (d : DB) : DB * (Result + error) :=
  match drv with
  | NotSent e => (d, inr e)
  | Failed e => (mkDB (rows d) (issued d ++ [q]), inr e)
  | Executed =>
      match run_stmt q (rows d) with
      | inl (t, n) => (mkDB t (issued d ++ [q]), inl n)
      | inr e => (mkDB (rows d) (issued d ++ [q]), inr e)
      end
  | FailedAfter e =>
      match run_stmt q (rows d) with
      | inl (t, _) => (mkDB t (issued d ++ [q]), inr e)
      | inr _ => (mkDB (rows d) (issued d ++ [q]), inr e)
      end
  end.

(** [result.RowsAffected()] under the driver's answer [drv]. *)
Definition RowsAffected (drv : option error) (r : Result) : Z + error :=
  match drv with
  | Some e => inr e
  | None => inl r
  end.

(** [db.QueryRowContext(ctx, query, messageID).Scan(&data)] for the one query
    of the package: the scanned column and the error of [Scan], which is
    [sql.ErrNoRows] when the query selects no row. The query is counted among
    the statements handed over also when its error came back before the
    driver got it: [issued] is an upper bound there. *)
Definition QueryRowScan (drv : option error) (table messageID : string) (d : DB)
  : DB * (list byte * option error) :=
  let d' := mkDB (rows d) (issued d ++ [SelectData table messageID]) in
  match drv with
  | Some e => (d', ([], Some e))
  | None =>
      match rows d !! messageID with
      | None => (d', ([], Some ErrNoRows))
      | Some r => (d', (data r, None))
      end
  end.

(** ** The payload source and io.ReadAll *)

(** An [io.Reader] handed to [StoreData], as [io.ReadAll] sees it: the bytes
    and the error of each [Read] in turn. A source whose list is used up
    answers [0, io.EOF]. *)
Definition Reader := list (list byte * option error).

(** [io.ReadAll]: append what each [Read] delivers, stop at the first error,
    and report [io.EOF] as success. *)
Fixpoint ReadAll (r : Reader) : list byte * option error :=
  match r with
  | [] => ([], None)
  | (p, None) :: r' => let '(b, err) := ReadAll r' in (p ++ b, err)%list
  | (p, Some EOF) :: _ => (p, None)
  | (p, Some e) :: _ => (p, Some e)
  end.

(** ** Backend *)

(** [type Backend struct { db *sql.DB; tableName string }]: [db] is the state
    of the database the pointer leads to. *)
Record Backend : Type := mkBackend {
  db : DB;
  tableName : string
}.

Definition with_db (b : Backend) (d : DB) : Backend := mkBackend d (tableName b).

(** [func (b *Backend) StoreData(ctx, messageID string, data io.Reader) (int64, error)] *)
Definition StoreData (b : Backend) (drv : Answer) (now : Time)
    (messageID : string) (src : Reader) : Backend * (Z * option error) :=
  let '(dataBytes, err) := ReadAll src in
  match err with
  | Some e => (b, (0, Some (Errorf_w "failed to read data: " e)))
  | None =>
      let size := Z.of_nat (length dataBytes) in
      let query := Upsert (tableName b) messageID dataBytes size now now in
      let '(d, res) := ExecContext drv query (db b) in
      match res with
      | inr e =>
          (with_db b d,
           (0, Some (Errorf_w ("failed to store data for message " +:+ messageID +:+ ": ") e)))
      | inl _ => (with_db b d, (size, None))
      end
  end.

(** [type bytesReadCloser struct { data []byte; offset int }] *)
Record bytesReadCloser : Type := mkBytesReadCloser {
  brc_data : list byte;
  offset : nat
}.

(** [func (b *Backend) GetDataReader(ctx, messageID string) (io.ReadCloser, error)] *)
Definition GetDataReader (b : Backend) (drv : option error) (messageID : string)
  : Backend * (option bytesReadCloser * option error) :=
  let '(d, (bytes, err)) := QueryRowScan drv (tableName b) messageID (db b) in
  match err with
  | Some ErrNoRows =>
      (with_db b d, (None, Some (Errorf ("data for message " +:+ messageID +:+ " not found"))))
  | Some e =>
      (with_db b d,
       (None, Some (Errorf_w ("failed to get data for message " +:+ messageID +:+ ": ") e)))
  | None => (with_db b d, (Some (mkBytesReadCloser bytes 0), None))
  end.

(** [func (brc *bytesReadCloser) Read(p []byte) (n int, err error)]: [lenp] is
    [len(p)], and the bytes returned are the [n] bytes copied to the front of
    [p]. *)
Definition Read (brc : bytesReadCloser) (lenp : nat)
  : bytesReadCloser * (list byte * option error) :=
  if (length (brc_data brc) <=? offset brc)%nat then (brc, ([], Some EOF))
  else
    let copied := take lenp (drop (offset brc) (brc_data brc)) in
    (mkBytesReadCloser (brc_data brc) (offset brc + length copied), (copied, None)).

(** [func (brc *bytesReadCloser) Close() error] *)
Definition brc_Close (brc : bytesReadCloser) : option error := None.

(** [io.ReadAll] over the stream adapter. The [k]-th [Read] gets a buffer of
    [S (room k)] bytes: [io.ReadAll] never passes an empty one, and how much
    room it has depends on how its buffer grew. [None]: [fuel] calls of [Read]
    did not reach an error or the end. *)
Fixpoint ReadAllFrom (fuel : nat) (room : nat -> nat) (k : nat) (brc : bytesReadCloser)
  : option (list byte * option error) :=
  match fuel with
  | O => None
  | S fuel' =>
      let '(brc', (p, err)) := Read brc (S (room k)) in
      match err with
      | Some EOF => Some (p, None)
      | Some e => Some (p, Some e)
      | None =>
          match ReadAllFrom fuel' room (S k) brc' with
          | Some (rest, e) => Some ((p ++ rest)%list, e)
          | None => None
          end
      end
  end.

(** [type postgresDataWriter struct { backend *Backend; messageID string;
    ctx context.Context; buffer []byte; closed bool }]. The backend the
    writer points to is shared with every other user of it, so it is not a
    field here: [Close] takes the backend and gives it back. *)
Record postgresDataWriter : Type := mkWriter {
  messageID : string;
  buffer : list byte;
  closed : bool
}.

(** [func (b *Backend) GetDataWriter(ctx, messageID string) (io.WriteCloser, error)] *)
Definition GetDataWriter (b : Backend) (id : string) : postgresDataWriter * option error :=
  (mkWriter id [] false, None).

(** [func (pdw *postgresDataWriter) Write(p []byte) (int, error)] *)
Definition Write (pdw : postgresDataWriter) (p : list byte)
  : postgresDataWriter * (Z * option error) :=
  if closed pdw then (pdw, (0, Some (Errorf "writer is closed")))
  else (mkWriter (messageID pdw) (buffer pdw ++ p) (closed pdw), (Z.of_nat (length p), None)).

(** [func (pdw *postgresDataWriter) Close() error] *)
Definition Close (pdw : postgresDataWriter) (b : Backend) (drv : Answer) (now : Time)
  : postgresDataWriter * Backend * option error :=
  if closed pdw then (pdw, b, None)
  else
    let pdw' := mkWriter (messageID pdw) (buffer pdw) true in
    if (length (buffer pdw) =? 0)%nat then (pdw', b, None)
    else
      let size := Z.of_nat (length (buffer pdw)) in
      let query := Upsert (tableName b) (messageID pdw) (buffer pdw) size now now in
      let '(d, res) := ExecContext drv query (db b) in
      match res with
      | inr e =>
          (pdw', with_db b d,
           Some (Errorf_w ("failed to store data for message " +:+ messageID pdw +:+ ": ") e))
      | inl _ => (pdw', with_db b d, None)
      end.

(** [func (b *Backend) DeleteData(ctx, messageID string) error]; [drv] answers
    [ExecContext] and [drvRows] answers [RowsAffected]. *)
Definition DeleteData (b : Backend) (drv : Answer) (drvRows : option error)
    (messageID : string)
  : Backend * option error :=
  let '(d, res) := ExecContext drv (DeleteRow (tableName b) messageID) (db b) in
  match res with
  | inr e =>
      (with_db b d,
       Some (Errorf_w ("failed to delete data for message " +:+ messageID +:+ ": ") e))
  | inl result =>
      match RowsAffected drvRows result with
      | inr e => (with_db b d, Some (Errorf_w "failed to check rows affected: " e))
      | inl rowsAffected =>
          if rowsAffected =? 0
          then (with_db b d, Some (Errorf ("data for message " +:+ messageID +:+ " not found")))
          else (with_db b d, None)
      end
  end.

(** ** A backend and the writers opened on it *)

(** The writers are kept by handle (their index); they all act on the one
    backend of the system, as the pointers [pdw.backend] do. *)
Record System : Type := mkSystem {
  backend : Backend;
  writers : list postgresDataWriter
}.

(** A call of the package's interface, with the answers of the outside world
    to it. *)
Inductive Op : Type :=
  | OpStoreData (drv : Answer) (now : Time) (id : string) (src : Reader)
  | OpGetDataReader (drv : option error) (id : string)
  | OpGetDataWriter (id : string)
  | OpWrite (w : nat) (p : list byte)
  | OpClose (w : nat) (drv : Answer) (now : Time)
  | OpDeleteData (drv : Answer) (drvRows : option error) (id : string).

(** A call on a handle that no [GetDataWriter] has returned does nothing. *)
Definition step (s : System) (o : Op) : System :=
  match o with
  | OpStoreData drv now id src =>
      mkSystem (StoreData (backend s) drv now id src).1 (writers s)
  | OpGetDataReader drv id =>
      mkSystem (GetDataReader (backend s) drv id).1 (writers s)
  | OpGetDataWriter id =>
      mkSystem (backend s) (writers s ++ [(GetDataWriter (backend s) id).1])
  | OpWrite w p =>
      match writers s !! w with
      | Some pdw => mkSystem (backend s) (<[w := (Write pdw p).1]> (writers s))
      | None => s
      end
  | OpClose w drv now =>
      match writers s !! w with
      | Some pdw =>
          let '(pdw', b', _) := Close pdw (backend s) drv now in
          mkSystem b' (<[w := pdw']> (writers s))
      | None => s
      end
  | OpDeleteData drv drvRows id =>
      mkSystem (DeleteData (backend s) drv drvRows id).1 (writers s)
  end.

Definition run (s : System) (ops : list Op) : System := fold_left step ops s.

(** The backend as [Factory.Create] returns it on a database that did not have
    the table: [createTable] has made it, and it has no row. *)
Definition created_backend (table : string) : Backend := mkBackend (mkDB ∅ []) table.

Definition initial (table : string) : System := mkSystem (created_backend table) [].

(** Every chunk written in turn to one writer. *)
Definition write_all (pdw : postgresDataWriter) (chunks : list (list byte))
  : postgresDataWriter :=
  fold_left (fun w p => (Write w p).1) chunks pdw.

(** The two conditions a caller may have to tell apart, read off the error's
    text: the package has no error type or sentinel of its own. *)
Definition IsNotFound (err : error) : bool := String.prefix "data for message " (Error err).

Definition size_consistent (t : gmap string Row) : Prop :=
  forall id r, t !! id = Some r -> size r = Z.of_nat (length (data r)).

(** An identifier of 256 characters: 255 times the letter a, then a space.
    The column holds it as its first 255 characters. *)
Definition padded_id : string := string_of_list_ascii (repeat "a"%char 255) +:+ " ".

(** The round trip of a store and a fetch, worded for every identifier. *)
Definition fetch_returns_stored : Prop :=
  forall (b : Backend) (now : Time) (id : string) (src : Reader) (p : list byte),
    ReadAll src = (p, None) ->
    let stored := StoreData b Executed now id src in
    stored.2 = (Z.of_nat (length p), None) /\
    (GetDataReader stored.1 None id).2 = (Some (mkBytesReadCloser p 0), None).

(** The second of two stores is the one fetched, worded for every
    identifier. *)
Definition second_store_is_fetched : Prop :=
  forall (b : Backend) (now1 now2 : Time) (id : string) (src1 src2 : Reader)
         (p1 p2 : list byte),
    ReadAll src1 = (p1, None) ->
    ReadAll src2 = (p2, None) ->
    let first := StoreData b Executed now1 id src1 in
    let second := StoreData first.1 Executed now2 id src2 in
    (GetDataReader second.1 None id).2 = (Some (mkBytesReadCloser p2 0), None).

(** A stored empty payload is fetched as such, worded for every
    identifier. *)
Definition empty_payload_is_fetched : Prop :=
  forall (b : Backend) (now : Time) (id : string) (src : Reader),
    ReadAll src = ([], None) ->
    let stored := StoreData b Executed now id src in
    stored.2 = (0, None) /\
    (GetDataReader stored.1 None id).2 = (Some (mkBytesReadCloser [] 0), None).

(** The commit on close, worded without a condition on the chunks: closing a
    writer, after any chunks, hands the driver one upsert whose payload is
    their concatenation, and a fetch then delivers it. *)
Definition close_always_commits : Prop :=
  forall (s : System) (id : string) (chunks : list (list byte)) (now : Time),
    let w := length (writers s) in
    let written := run (step s (OpGetDataWriter id)) (map (OpWrite w) chunks) in
    let after := step written (OpClose w Executed now) in
    let payload := concat chunks in
    issued (db (backend after)) =
      issued (db (backend s)) ++
        [Upsert (tableName (backend s)) id payload (Z.of_nat (length payload)) now now]
    /\ (GetDataReader (backend after) None id).2 = (Some (mkBytesReadCloser payload 0), None).

(** ** Traces of the read-side adapter *)

(** The results of successive [Read] calls on one reader, the [k]-th with a
    buffer of [sizes !! k] bytes (which may be none). *)
Fixpoint Reads (brc : bytesReadCloser) (sizes : list nat) : bytesReadCloser * Reader :=
  match sizes with
  | [] => (brc, [])
  | lenp :: sizes' =>
      let '(brc1, res) := Read brc lenp in
      let '(brc2, rest) := Reads brc1 sizes' in
      (brc2, res :: rest)
  end.

(** ** Calls seen from one identifier or one handle *)

(** The call stores under an identifier that the column holds as [id], opens
    a writer for such an identifier, or deletes [id]. *)
Definition names (id : string) (o : Op) : bool :=
  match o with
  | OpStoreData _ _ id' _ => bool_decide (varchar255 id' = Some id)
  | OpGetDataWriter id' => bool_decide (varchar255 id' = Some id)
  | OpDeleteData _ _ id' => bool_decide (id = id')
  | _ => false
  end.

(** The call closes the writer behind the handle [w]. *)
Definition closes (w : nat) (o : Op) : bool :=
  match o with
  | OpClose w' _ _ => (w =? w')%nat
  | _ => false
  end.

(** The bytes the calls write through the handle [w], in order. *)
Fixpoint written_to (w : nat) (ops : list Op) : list byte :=
  match ops with
  | [] => []
  | OpWrite w' p :: ops' => if (w =? w')%nat then p ++ written_to w ops' else written_to w ops'
  | _ :: ops' => written_to w ops'
  end.

(** The reading of [time.Now()] a call takes, if it takes one. *)
Definition op_time (o : Op) : option Time :=
  match o with
  | OpStoreData _ now _ _ => Some now
  | OpClose _ _ now => Some now
  | _ => None
  end.

(** The clock readings of the calls never go back, starting from [t]. *)
Fixpoint clock_monotone (t : Time) (ops : list Op) : bool :=
  match ops with
  | [] => true
  | o :: ops' =>
      match op_time o with
      | Some t' => (t <=? t') && clock_monotone t' ops'
      | None => clock_monotone t ops'
      end
  end.

Definition timestamps_ordered (now : Time) (t : gmap string Row) : Prop :=
  forall id r, t !! id = Some r -> created r <= updated r /\ updated r <= now.

(** The calls among [ops] that can reach the driver: all but [Write] and
    [GetDataWriter]. *)
Fixpoint driver_calls (ops : list Op) : nat :=
  match ops with
  | [] => 0
  | OpWrite _ _ :: ops' => driver_calls ops'
  | OpGetDataWriter _ :: ops' => driver_calls ops'
  | _ :: ops' => S (driver_calls ops')
  end.

(** ** Factory *)

(** [type Factory struct { dsn, tableName string; maxOpenConns, maxIdleConns int }];
    the field [tableName] is [factoryTableName] here, apart from the
    backend's. *)
Record Factory : Type := mkFactory {
  dsn : string;
  factoryTableName : string;
  maxOpenConns : Z;
  maxIdleConns : Z
}.

(** [func NewFactory(dsn string) *Factory] *)
Definition NewFactory (dsn : string) : Factory := mkFactory dsn "retryspool_data" 25 5.

(** [func (f *Factory) WithTableName(tableName string) *Factory]: the receiver,
    changed in place, is what is returned. *)
Definition WithTableName (f : Factory) (tableName : string) : Factory :=
  mkFactory (dsn f) tableName (maxOpenConns f) (maxIdleConns f).

(** [func (f *Factory) WithConnectionLimits(maxOpen, maxIdle int) *Factory] *)
Definition WithConnectionLimits (f : Factory) (maxOpen maxIdle : Z) : Factory :=
  mkFactory (dsn f) (factoryTableName f) maxOpen maxIdle.

(** [func (f *Factory) Name() string] *)
Definition Name (f : Factory) : string := "postgres-data".

(** One call of a builder method. *)
Inductive FactoryOption : Type :=
  | OptTableName (tableName : string)
  | OptConnectionLimits (maxOpen maxIdle : Z).

Definition apply_option (f : Factory) (o : FactoryOption) : Factory :=
  match o with
  | OptTableName t => WithTableName f t
  | OptConnectionLimits maxOpen maxIdle => WithConnectionLimits f maxOpen maxIdle
  end.

(** The table names, and the limits, that a chain of builder calls passes. *)
Definition table_names (opts : list FactoryOption) : list string :=
  omap (fun o => match o with OptTableName t => Some t | _ => None end) opts.

Definition limits (opts : list FactoryOption) : list (Z * Z) :=
  omap (fun o => match o with OptConnectionLimits a b => Some (a, b) | _ => None end) opts.

(** What [Create] and [Backend.Close] do with the pool [sql.Open] returns. *)
Inductive PoolCall : Type :=
  | SetMaxOpenConns (n : Z)
  | SetMaxIdleConns (n : Z)
  | Ping
  | ExecCreateTable (table : string)
  | PoolClose.

(** [func (b *Backend) createTable() error]: one [Exec] of
    [CREATE TABLE IF NOT EXISTS] and two [CREATE INDEX IF NOT EXISTS].
    [existing] is the table of that name in the database, if there is one.
    The result is the table in the database afterwards, and the error. Where
    the statement takes effect it makes an empty table where there was none
    and leaves one that existed as it was. *)
Definition createTable (drv : Answer) (existing : option DB) : option DB * option error :=
  let made := Some (default (mkDB ∅ []) existing) in
  match drv with
  | Executed => (made, None)
  | NotSent e => (existing, Some e)
  | Failed e => (existing, Some e)
  | FailedAfter e => (made, Some e)
  end.

(** [func (f *Factory) Create() (datastorage.Backend, error)] under the
    answers of [sql.Open], [db.Ping] and the [Exec] of [createTable]: the
    backend and error returned, the calls made on the pool, and the table in
    the database afterwards. The backend's [db] is that table. *)
Definition Create (f : Factory) (ansOpen ansPing : option error) (ansExec : Answer)
    (existing : option DB)
  : (option Backend * option error) * (list PoolCall * option DB) :=
  match ansOpen with
  | Some e => ((None, Some e), ([], existing))
  | None =>
      let configured :=
        [SetMaxOpenConns (maxOpenConns f); SetMaxIdleConns (maxIdleConns f); Ping] in
      match ansPing with
      | Some e => ((None, Some e), (configured ++ [PoolClose], existing))
      | None =>
          let calls := configured ++ [ExecCreateTable (factoryTableName f)] in
          let '(table, err) := createTable ansExec existing in
          match err with
          | Some e => ((None, Some e), (calls ++ [PoolClose], table))
          | None =>
              ((Some (mkBackend (default (mkDB ∅ []) table) (factoryTableName f)), None),
               (calls, table))
          end
      end
  end.

(** [func (b *Backend) Close() error]: [b.db.Close()]. *)
Definition Backend_Close (drv : option error) : list PoolCall * option error :=
  ([PoolClose], drv).

(** * Properties *)

(** ** The read-side adapter *)

Section ReadSide.
Variable room : nat -> nat.

Lemma Read_at_end (d : list byte) (off lenp : nat) :
  (length d <= off)%nat ->
  Read (mkBytesReadCloser d off) lenp = (mkBytesReadCloser d off, ([], Some EOF)).
Proof.
  intros Hle. unfold Read; simpl.
  destruct (Nat.leb_spec (length d) off); [reflexivity | lia].
Qed.

Lemma Read_inside (d : list byte) (off lenp : nat) :
  (off < length d)%nat ->
  Read (mkBytesReadCloser d off) lenp =
    (mkBytesReadCloser d (off + Nat.min lenp (length d - off)),
     (take lenp (drop off d), None)).
Proof.
  intros Hlt. unfold Read; simpl.
  destruct (Nat.leb_spec (length d) off); [lia |].
  by rewrite length_take, length_drop.
Qed.

(** Reading to the end delivers what lies after the offset, whatever room
    the buffers have, as soon as the fuel exceeds the bytes left. *)
Lemma ReadAllFrom_rest (fuel : nat) :
  forall (k : nat) (d : list byte) (off : nat),
    (length d - off < fuel)%nat ->
    ReadAllFrom fuel room k (mkBytesReadCloser d off) = Some (drop off d, None).
Proof.
  induction fuel as [| fuel IH]; intros k d off Hfuel; [lia |].
  cbn [ReadAllFrom].
  destruct (Nat.le_gt_cases (length d) off) as [Hend | Hin].
  - rewrite Read_at_end by done. by rewrite drop_ge.
  - rewrite Read_inside by done.
    rewrite IH by lia.
    do 2 f_equal.
    rewrite <- (take_drop (S (room k)) (drop off d)) at 2.
    f_equal. rewrite drop_drop.
    destruct (Nat.le_gt_cases (S (room k)) (length d - off)).
    + by rewrite Nat.min_l.
    + rewrite Nat.min_r by lia.
      rewrite !drop_ge; [done | lia | lia].
Qed.

Lemma ReadAllFrom_all (p : list byte) (extra : nat) :
  ReadAllFrom (S (length p) + extra) room 0 (mkBytesReadCloser p 0) = Some (p, None).
Proof. rewrite ReadAllFrom_rest; [done | simpl; lia]. Qed.

(** Once at the end, every further [Read] signals the end again. *)
Lemma Read_end_again (brc : bytesReadCloser) (n m : nat) :
  (Read brc n).2.2 = Some EOF ->
  Read (Read brc n).1 m = ((Read brc n).1, ([], Some EOF)).
Proof.
  destruct brc as [d off]. unfold Read; simpl.
  destruct (Nat.leb_spec (length d) off) as [Hle | Hlt]; simpl; [| discriminate].
  intros _. destruct (Nat.leb_spec (length d) off); [done | lia].
Qed.
End ReadSide.

(** ** Store and fetch *)

Lemma characters_le_length (s : string) : (characters s <= String.length s)%nat.
Proof. induction s as [| a s IH]; cbn; [done |]. destruct (continuation a); lia. Qed.

(** An identifier of at most 255 bytes has at most 255 characters. *)
Lemma fits_varchar255_bytes (id : string) :
  (String.length id <= 255)%nat -> fits_varchar255 id = true.
Proof.
  intros Hlen. apply Nat.leb_le. pose proof (characters_le_length id). lia.
Qed.

Lemma varchar255_fits (id : string) : fits_varchar255 id = true -> varchar255 id = Some id.
Proof. intros Hfits. unfold varchar255. by rewrite Hfits. Qed.

(** The column never holds more than 255 characters. *)
Lemma split_characters_kept (s : string) :
  forall n : nat, (characters (split_characters n s).1 <= n)%nat.
Proof.
  induction s as [| a s IH]; intros n; cbn; [lia |].
  destruct (continuation a) eqn:Ha.
  - specialize (IH n). destruct (split_characters n s). cbn in *. by rewrite Ha.
  - destruct n as [| n]; cbn; [lia |].
    specialize (IH n). destruct (split_characters n s). cbn in *. rewrite Ha. lia.
Qed.

Lemma varchar255_characters (id key : string) :
  varchar255 id = Some key -> fits_varchar255 key = true.
Proof.
  unfold varchar255. destruct (fits_varchar255 id) eqn:Hfits; [by intros [= <-] |].
  pose proof (split_characters_kept id 255) as Hkept.
  destruct (split_characters 255 id) as [kept excess].
  destruct (all_spaces excess); [| done]. intros [= <-]. by apply Nat.leb_le.
Qed.

Lemma StoreData_key (b : Backend) (now : Time) (id key : string) (src : Reader)
    (p : list byte) :
  ReadAll src = (p, None) ->
  varchar255 id = Some key ->
  StoreData b Executed now id src =
    (with_db b
       (mkDB (<[key := upsert_row (rows (db b) !! key) p (Z.of_nat (length p)) now now]>
                (rows (db b)))
             (issued (db b) ++ [Upsert (tableName b) id p (Z.of_nat (length p)) now now])),
     (Z.of_nat (length p), None)).
Proof. intros Hsrc Hkey. unfold StoreData, ExecContext, run_stmt. by rewrite Hsrc, Hkey. Qed.

Lemma StoreData_ok (b : Backend) (now : Time) (id : string) (src : Reader) (p : list byte) :
  ReadAll src = (p, None) ->
  fits_varchar255 id = true ->
  StoreData b Executed now id src =
    (with_db b
       (mkDB (<[id := upsert_row (rows (db b) !! id) p (Z.of_nat (length p)) now now]>
                (rows (db b)))
             (issued (db b) ++ [Upsert (tableName b) id p (Z.of_nat (length p)) now now])),
     (Z.of_nat (length p), None)).
Proof. intros Hsrc Hfits. apply StoreData_key; [done | by apply varchar255_fits]. Qed.

Lemma GetDataReader_found (b : Backend) (id : string) (r : Row) :
  rows (db b) !! id = Some r ->
  GetDataReader b None id =
    (with_db b (mkDB (rows (db b)) (issued (db b) ++ [SelectData (tableName b) id])),
     (Some (mkBytesReadCloser (data r) 0), None)).
Proof. intros Hrow. unfold GetDataReader, QueryRowScan. by rewrite Hrow. Qed.

Lemma GetDataReader_absent (b : Backend) (id : string) :
  rows (db b) !! id = None ->
  GetDataReader b None id =
    (with_db b (mkDB (rows (db b)) (issued (db b) ++ [SelectData (tableName b) id])),
     (None, Some (Errorf ("data for message " +:+ id +:+ " not found")))).
Proof. intros Hrow. unfold GetDataReader, QueryRowScan. by rewrite Hrow. Qed.

Lemma upsert_row_data (old : option Row) (d : list byte) (sz : Z) (c u : Time) :
  data (upsert_row old d sz c u) = d /\ size (upsert_row old d sz c u) = sz
  /\ updated (upsert_row old d sz c u) = u.
Proof. by destruct old. Qed.

(** C1, as stated, fails. Under the identifier of 255 letters and a space
    the store returns the length and no error, the column having cut the
    space; the fetch of that identifier, which compares uncut, then finds no
    row. *)
Lemma fetch_returns_stored_fails :
  let stored :=
    StoreData (created_backend "t1") Executed 7 padded_id
      [(list_byte_of_string "hello", Some EOF)] in
  stored.2 = (5, None) /\
  (GetDataReader stored.1 None padded_id).2 =
    (None, Some (errorString ("data for message " +:+ padded_id +:+ " not found"))) /\
  ~ fetch_returns_stored.
Proof.
  cbn zeta.
  split; [vm_compute; reflexivity |].
  split; [vm_compute; reflexivity |].
  intros Hclaim.
  destruct (Hclaim (created_backend "t1") 7 padded_id
              [(list_byte_of_string "hello", Some EOF)] (list_byte_of_string "hello") eq_refl)
    as [_ Hfetch].
  vm_compute in Hfetch. discriminate Hfetch.
Qed.

(** C1, amended. Storing a payload [p] under an identifier of at most 255
    characters reports [len(p)] without an error, and fetching the
    identifier afterwards gives a reader that, read to its end, delivers
    exactly [p]. *)
Theorem store_then_fetch (b : Backend) (now : Time) (id : string) (src : Reader)
    (p : list byte) (room : nat -> nat) (extra : nat) :
  fits_varchar255 id = true ->
  ReadAll src = (p, None) ->
  let stored := StoreData b Executed now id src in
  let fetched := GetDataReader stored.1 None id in
  stored.2 = (Z.of_nat (length p), None) /\
  exists brc,
    fetched.2 = (Some brc, None) /\
    ReadAllFrom (S (length p) + extra) room 0 brc = Some (p, None).
Proof.
  intros Hfits Hsrc. cbn zeta. rewrite (StoreData_ok _ _ _ _ _ Hsrc Hfits). cbn [fst snd].
  split; [done |].
  erewrite GetDataReader_found by (cbn; apply lookup_insert_eq).
  eexists; split; [done |].
  destruct (upsert_row_data (rows (db b) !! id) p (Z.of_nat (length p)) now now) as [-> _].
  apply ReadAllFrom_all.
Qed.

Lemma store_then_fetch_witness :
  let src : Reader :=
    [(list_byte_of_string "hel", None); (list_byte_of_string "lo", Some EOF)] in
  let stored := StoreData (created_backend "t1") Executed 7 "m1" src in
  let fetched := GetDataReader stored.1 None "m1" in
  fits_varchar255 "m1" = true /\
  stored.2 = (5, None) /\
  exists brc,
    fetched.2 = (Some brc, None) /\
    ReadAllFrom 6 (fun _ => 1%nat) 0 brc = Some (list_byte_of_string "hello", None).
Proof.
  split; [reflexivity |].
  exact (store_then_fetch (created_backend "t1") 7 "m1"
           [(list_byte_of_string "hel", None); (list_byte_of_string "lo", Some EOF)]
           (list_byte_of_string "hello") (fun _ => 1%nat) 0 eq_refl eq_refl).
Defined.

(** C2, as stated, fails. Two stores under the identifier of 255 letters
    and a space both return no error, and the fetch of that identifier finds
    neither payload. *)
Lemma second_store_is_fetched_fails :
  let first :=
    StoreData (created_backend "t1") Executed 10 padded_id
      [(list_byte_of_string "hello", Some EOF)] in
  let second := StoreData first.1 Executed 20 padded_id [(list_byte_of_string "hi", Some EOF)] in
  first.2 = (5, None) /\
  second.2 = (2, None) /\
  (GetDataReader second.1 None padded_id).2 =
    (None, Some (errorString ("data for message " +:+ padded_id +:+ " not found"))) /\
  ~ second_store_is_fetched.
Proof.
  cbn zeta.
  split; [vm_compute; reflexivity |].
  split; [vm_compute; reflexivity |].
  split; [vm_compute; reflexivity |].
  intros Hclaim.
  pose proof (Hclaim (created_backend "t1") 10 20 padded_id
                [(list_byte_of_string "hello", Some EOF)] [(list_byte_of_string "hi", Some EOF)]
                (list_byte_of_string "hello") (list_byte_of_string "hi") eq_refl eq_refl)
    as Hfetch.
  vm_compute in Hfetch. discriminate Hfetch.
Qed.

(** C2, amended. Two stores under one identifier of at most 255
    characters, [p1] then [p2]: the record then holds [p2] (and its length),
    [created] is what the first store left, and [updated] is the time of the
    second store; fetching delivers [p2]. *)
Theorem store_twice (b : Backend) (now1 now2 : Time) (id : string) (src1 src2 : Reader)
    (p1 p2 : list byte) (room : nat -> nat) (extra : nat) :
  fits_varchar255 id = true ->
  ReadAll src1 = (p1, None) ->
  ReadAll src2 = (p2, None) ->
  let first := StoreData b Executed now1 id src1 in
  let second := StoreData first.1 Executed now2 id src2 in
  let fetched := GetDataReader second.1 None id in
  exists r1,
    rows (db first.1) !! id = Some r1 /\
    data r1 = p1 /\ updated r1 = now1 /\
    (rows (db b) !! id = None -> created r1 = now1) /\
    second.2 = (Z.of_nat (length p2), None) /\
    rows (db second.1) !! id = Some (mkRow p2 (Z.of_nat (length p2)) (created r1) now2) /\
    exists brc,
      fetched.2 = (Some brc, None) /\
      ReadAllFrom (S (length p2) + extra) room 0 brc = Some (p2, None).
Proof.
  intros Hfits Hsrc1 Hsrc2. cbn zeta.
  rewrite (StoreData_ok b _ _ _ _ Hsrc1 Hfits). cbn [fst snd].
  rewrite (StoreData_ok _ _ _ _ _ Hsrc2 Hfits). cbn [fst snd db rows with_db].
  set (r1 := upsert_row (rows (db b) !! id) p1 (Z.of_nat (length p1)) now1 now1).
  exists r1. rewrite !lookup_insert_eq.
  repeat split.
  - by destruct (rows (db b) !! id).
  - by destruct (rows (db b) !! id).
  - intros Hnew. subst r1. by rewrite Hnew.
  - erewrite GetDataReader_found by (cbn; apply lookup_insert_eq).
    eexists; split; [done |]. cbn [data upsert_row]. apply ReadAllFrom_all.
Qed.

Lemma store_twice_witness :
  let src1 : Reader := [(list_byte_of_string "hello", Some EOF)] in
  let src2 : Reader := [(list_byte_of_string "hi", None)] in
  let first := StoreData (created_backend "t1") Executed 10 "m1" src1 in
  let second := StoreData first.1 Executed 20 "m1" src2 in
  let fetched := GetDataReader second.1 None "m1" in
  exists r1,
    rows (db first.1) !! "m1" = Some r1 /\
    data r1 = list_byte_of_string "hello" /\ updated r1 = 10 /\
    (rows (db (created_backend "t1")) !! "m1" = None -> created r1 = 10) /\
    second.2 = (2, None) /\
    rows (db second.1) !! "m1" = Some (mkRow (list_byte_of_string "hi") 2 (created r1) 20) /\
    exists brc,
      fetched.2 = (Some brc, None) /\
      ReadAllFrom 3 (fun _ => 511%nat) 0 brc = Some (list_byte_of_string "hi", None).
Proof.
  exact (store_twice (created_backend "t1") 10 20 "m1"
           [(list_byte_of_string "hello", Some EOF)] [(list_byte_of_string "hi", None)]
           (list_byte_of_string "hello") (list_byte_of_string "hi")
           (fun _ => 511%nat) 0 eq_refl eq_refl eq_refl).
Defined.

(** ** The size column *)

Lemma size_consistent_empty : size_consistent ∅.
Proof. intros id r Hrow. by rewrite lookup_empty in Hrow. Qed.

Lemma size_consistent_upsert (t : gmap string Row) (id : string) (d : list byte) (c u : Time) :
  size_consistent t ->
  size_consistent (<[id := upsert_row (t !! id) d (Z.of_nat (length d)) c u]> t).
Proof.
  intros Ht id' r'. destruct (decide (id = id')) as [<- | Hne].
  - rewrite lookup_insert_eq. intros [= <-]. by destruct (t !! id).
  - rewrite lookup_insert_ne by done. apply Ht.
Qed.

Lemma size_consistent_delete (t : gmap string Row) (id : string) :
  size_consistent t -> size_consistent (delete id t).
Proof.
  intros Ht id' r'. destruct (decide (id = id')) as [<- | Hne].
  - by rewrite lookup_delete_eq.
  - rewrite lookup_delete_ne by done. apply Ht.
Qed.

(** What a call can do to the rows, whatever the answer: nothing, or what
    its one statement does. *)
Lemma ExecContext_upsert_rows (drv : Answer) (table id : string) (p : list byte) (sz : Z)
    (c u : Time) (d : DB) :
  rows (ExecContext drv (Upsert table id p sz c u) d).1 = rows d \/
  exists key,
    varchar255 id = Some key /\
    rows (ExecContext drv (Upsert table id p sz c u) d).1
      = <[key := upsert_row (rows d !! key) p sz c u]> (rows d).
Proof.
  unfold ExecContext, run_stmt.
  destruct drv as [| e | e | e]; try (by left);
    (destruct (varchar255 id) as [key |]; [right; by exists key | by left]).
Qed.

Lemma ExecContext_delete_rows (drv : Answer) (table id : string) (d : DB) :
  rows (ExecContext drv (DeleteRow table id) d).1 = rows d \/
  rows (ExecContext drv (DeleteRow table id) d).1 = delete id (rows d).
Proof.
  unfold ExecContext, run_stmt.
  destruct drv as [| e | e | e]; try (by left);
    (destruct (rows d !! id); [by right | by left]).
Qed.

Lemma StoreData_rows (b : Backend) (drv : Answer) (now : Time) (id : string) (src : Reader) :
  rows (db (StoreData b drv now id src).1) = rows (db b) \/
  exists key,
    varchar255 id = Some key /\
    rows (db (StoreData b drv now id src).1)
      = <[key := upsert_row (rows (db b) !! key) (ReadAll src).1
                   (Z.of_nat (length (ReadAll src).1)) now now]> (rows (db b)).
Proof.
  unfold StoreData. destruct (ReadAll src) as [p [e |]]; [by left |]. cbn [fst].
  pose proof (ExecContext_upsert_rows drv (tableName b) id p (Z.of_nat (length p)) now now
                (db b)) as Hexec.
  by destruct (ExecContext drv _ (db b)) as [d [n | e]].
Qed.

Lemma Close_rows (pdw : postgresDataWriter) (b : Backend) (drv : Answer) (now : Time) :
  rows (db (Close pdw b drv now).1.2) = rows (db b) \/
  exists key,
    varchar255 (messageID pdw) = Some key /\
    rows (db (Close pdw b drv now).1.2)
      = <[key := upsert_row (rows (db b) !! key) (buffer pdw)
                   (Z.of_nat (length (buffer pdw))) now now]> (rows (db b)).
Proof.
  unfold Close. destruct (closed pdw); [by left |].
  destruct (length (buffer pdw) =? 0)%nat; [by left |].
  pose proof (ExecContext_upsert_rows drv (tableName b) (messageID pdw) (buffer pdw)
                (Z.of_nat (length (buffer pdw))) now now (db b)) as Hexec.
  by destruct (ExecContext drv _ (db b)) as [d [n | e]].
Qed.

Lemma DeleteData_rows (b : Backend) (drv : Answer) (drvRows : option error) (id : string) :
  rows (db (DeleteData b drv drvRows id).1) = rows (db b) \/
  rows (db (DeleteData b drv drvRows id).1) = delete id (rows (db b)).
Proof.
  unfold DeleteData.
  pose proof (ExecContext_delete_rows drv (tableName b) id (db b)) as Hexec.
  destruct (ExecContext drv _ (db b)) as [d [n | e]]; [| done].
  destruct (RowsAffected drvRows n) as [k | e]; [| done]. by destruct (k =? 0).
Qed.

Lemma StoreData_size_consistent (b : Backend) drv now id src :
  size_consistent (rows (db b)) ->
  size_consistent (rows (db (StoreData b drv now id src).1)).
Proof.
  intros Hb. destruct (StoreData_rows b drv now id src) as [-> | (key & _ & ->)]; [done |].
  by apply size_consistent_upsert.
Qed.

Lemma GetDataReader_rows (b : Backend) drv id :
  rows (db (GetDataReader b drv id).1) = rows (db b).
Proof.
  unfold GetDataReader, QueryRowScan.
  destruct drv as [[] |]; [done .. |]. by destruct (rows (db b) !! id).
Qed.

Lemma Close_size_consistent (pdw : postgresDataWriter) (b : Backend) drv now :
  size_consistent (rows (db b)) ->
  size_consistent (rows (db (Close pdw b drv now).1.2)).
Proof.
  intros Hb. destruct (Close_rows pdw b drv now) as [-> | (key & _ & ->)]; [done |].
  by apply size_consistent_upsert.
Qed.

Lemma DeleteData_size_consistent (b : Backend) drv drvRows id :
  size_consistent (rows (db b)) ->
  size_consistent (rows (db (DeleteData b drv drvRows id).1)).
Proof.
  intros Hb. destruct (DeleteData_rows b drv drvRows id) as [-> | ->]; [done |].
  by apply size_consistent_delete.
Qed.

Lemma step_size_consistent (s : System) (o : Op) :
  size_consistent (rows (db (backend s))) ->
  size_consistent (rows (db (backend (step s o)))).
Proof.
  intros Hs. destruct o as [drv now id src | drv id | id | w p | w drv now | drv drvRows id];
    cbn [step backend].
  - by apply StoreData_size_consistent.
  - by rewrite GetDataReader_rows.
  - done.
  - by destruct (writers s !! w).
  - destruct (writers s !! w) as [pdw |]; [| done].
    pose proof (Close_size_consistent pdw (backend s) drv now Hs) as Hc.
    by destruct (Close pdw (backend s) drv now) as [[pdw' b'] e].
  - by apply DeleteData_size_consistent.
Qed.

Lemma run_size_consistent (ops : list Op) :
  forall s : System,
    size_consistent (rows (db (backend s))) ->
    size_consistent (rows (db (backend (run s ops)))).
Proof.
  unfold run. induction ops as [| o ops IH]; intros s Hs; [done |].
  cbn [fold_left]. apply IH. by apply step_size_consistent.
Qed.

(** C3. Whatever calls are made on a backend and its writers, with whatever
    answers of the driver, a row of the table has in [size] the length of its
    [data]. *)
Theorem size_is_length_of_data (table : string) (ops : list Op) (id : string) (r : Row) :
  rows (db (backend (run (initial table) ops))) !! id = Some r ->
  size r = Z.of_nat (length (data r)).
Proof.
  apply (run_size_consistent ops (initial table)). apply size_consistent_empty.
Qed.

Lemma size_is_length_of_data_witness :
  let ops :=
    [OpGetDataWriter "m1";
     OpWrite 0 (list_byte_of_string "abc");
     OpStoreData Executed 1 "m1" [(list_byte_of_string "hello", Some EOF)];
     OpWrite 0 (list_byte_of_string "def");
     OpClose 0 Executed 3;
     OpDeleteData Executed None "m2"] in
  let r := mkRow (list_byte_of_string "abcdef") 6 1 3 in
  rows (db (backend (run (initial "t1") ops))) !! "m1" = Some r /\
  size r = Z.of_nat (length (data r)).
Proof.
  split; [vm_compute; reflexivity |].
  apply (size_is_length_of_data "t1"
           [OpGetDataWriter "m1";
            OpWrite 0 (list_byte_of_string "abc");
            OpStoreData Executed 1 "m1" [(list_byte_of_string "hello", Some EOF)];
            OpWrite 0 (list_byte_of_string "def");
            OpClose 0 Executed 3;
            OpDeleteData Executed None "m2"]
           "m1" (mkRow (list_byte_of_string "abcdef") 6 1 3)).
  vm_compute; reflexivity.
Defined.

(** ** Not found *)

Lemma IsNotFound_not_found (id : string) :
  IsNotFound (Errorf ("data for message " +:+ id +:+ " not found")) = true.
Proof. by destruct id. Qed.

Lemma IsNotFound_failed (text : string) (e : error) :
  IsNotFound (Errorf_w ("failed to " +:+ text) e) = false.
Proof. reflexivity. Qed.

Lemma GetDataReader_driver_error (b : Backend) (id : string) (e : error) :
  e <> ErrNoRows ->
  GetDataReader b (Some e) id =
    (with_db b (mkDB (rows (db b)) (issued (db b) ++ [SelectData (tableName b) id])),
     (None, Some (Errorf_w ("failed to get data for message " +:+ id +:+ ": ") e))).
Proof. intros Hne. unfold GetDataReader, QueryRowScan. by destruct e. Qed.

(** C4. Fetching an identifier that has no row fails with the error
    "data for message <id> not found". A caller can tell it from the failure
    of the query: that one wraps the driver's error and its text starts with
    "failed to get data", for whatever identifier and driver error. *)
Theorem fetch_absent_not_found (b : Backend) (id : string) :
  rows (db b) !! id = None ->
  let notFound := Errorf ("data for message " +:+ id +:+ " not found") in
  (GetDataReader b None id).2 = (None, Some notFound) /\
  IsNotFound notFound = true /\
  Unwrap notFound = None /\
  forall (b' : Backend) (id' : string) (e : error),
    e <> ErrNoRows ->
    exists ioFailure,
      (GetDataReader b' (Some e) id').2 = (None, Some ioFailure) /\
      IsNotFound ioFailure = false /\
      Unwrap ioFailure = Some e /\
      ioFailure <> notFound.
Proof.
  intros Habsent. cbn zeta. rewrite (GetDataReader_absent _ _ Habsent).
  repeat split; [apply IsNotFound_not_found |].
  intros b' id' e Hne. rewrite (GetDataReader_driver_error _ _ _ Hne).
  eexists; repeat split. discriminate.
Qed.

Lemma fetch_absent_not_found_witness :
  rows (db (created_backend "t1")) !! "m1" = None /\
  (GetDataReader (created_backend "t1") None "m1").2 =
    (None, Some (errorString "data for message m1 not found")) /\
  (GetDataReader (created_backend "t1") (Some (foreignError "connection refused")) "m1").2 =
    (None, Some (wrapError "failed to get data for message m1: connection refused"
                   (foreignError "connection refused"))).
Proof.
  split; [reflexivity |].
  destruct (fetch_absent_not_found (created_backend "t1") "m1" eq_refl) as (Hnf & _ & _ & Hio).
  split; [exact Hnf |].
  destruct (Hio (created_backend "t1") "m1" (foreignError "connection refused"))
    as (ioFailure & Hget & _); [discriminate |].
  reflexivity.
Defined.

(** ** Delete *)

Lemma DeleteData_absent (b : Backend) (id : string) :
  rows (db b) !! id = None ->
  DeleteData b Executed None id =
    (with_db b (mkDB (rows (db b)) (issued (db b) ++ [DeleteRow (tableName b) id])),
     Some (Errorf ("data for message " +:+ id +:+ " not found"))).
Proof. intros Hrow. unfold DeleteData, ExecContext, run_stmt. by rewrite Hrow. Qed.

Lemma DeleteData_present (b : Backend) (id : string) (r : Row) :
  rows (db b) !! id = Some r ->
  DeleteData b Executed None id =
    (with_db b (mkDB (delete id (rows (db b))) (issued (db b) ++ [DeleteRow (tableName b) id])),
     None).
Proof. intros Hrow. unfold DeleteData, ExecContext, run_stmt. by rewrite Hrow. Qed.

(** C5. Deleting an identifier that has no row fails with the not-found
    error and leaves the table as it is. Deleting one that has a row returns
    no error, and then fetching it, or deleting it once more, fails with the
    not-found error. *)
Theorem delete_not_idempotent (b : Backend) (id : string) :
  let notFound := Errorf ("data for message " +:+ id +:+ " not found") in
  let deleted := DeleteData b Executed None id in
  match rows (db b) !! id with
  | None =>
      deleted.2 = Some notFound /\ IsNotFound notFound = true /\
      rows (db deleted.1) = rows (db b)
  | Some _ =>
      deleted.2 = None /\
      rows (db deleted.1) !! id = None /\
      (GetDataReader deleted.1 None id).2 = (None, Some notFound) /\
      (DeleteData deleted.1 Executed None id).2 = Some notFound
  end.
Proof.
  cbn zeta. destruct (rows (db b) !! id) as [r |] eqn:Hrow.
  - rewrite (DeleteData_present _ _ _ Hrow). cbn [fst snd].
    assert (rows (db (with_db b (mkDB (delete id (rows (db b)))
              (issued (db b) ++ [DeleteRow (tableName b) id])))) !! id = None) as Hgone
      by (cbn; apply lookup_delete_eq).
    rewrite (GetDataReader_absent _ _ Hgone), (DeleteData_absent _ _ Hgone).
    repeat split. exact Hgone.
  - rewrite (DeleteData_absent _ _ Hrow).
    repeat split. apply IsNotFound_not_found.
Qed.

(** ** The write-side adapter *)

Lemma Write_open (pdw : postgresDataWriter) (p : list byte) :
  closed pdw = false ->
  Write pdw p = (mkWriter (messageID pdw) (buffer pdw ++ p) false, (Z.of_nat (length p), None)).
Proof. intros Hopen. unfold Write. by rewrite Hopen. Qed.

Lemma Write_closed (pdw : postgresDataWriter) (p : list byte) :
  closed pdw = true ->
  Write pdw p = (pdw, (0, Some (Errorf "writer is closed"))).
Proof. intros Hclosed. unfold Write. by rewrite Hclosed. Qed.

Lemma Close_closed (pdw : postgresDataWriter) (b : Backend) drv now :
  closed pdw = true -> Close pdw b drv now = (pdw, b, None).
Proof. intros Hclosed. unfold Close. by rewrite Hclosed. Qed.

Lemma Close_closes (pdw : postgresDataWriter) (b : Backend) drv now :
  closed (Close pdw b drv now).1.1 = true.
Proof.
  unfold Close. destruct (closed pdw) eqn:Hc; [done |].
  destruct (length (buffer pdw) =? 0)%nat; [done |].
  by destruct (ExecContext drv _ (db b)) as [d [n | e]].
Qed.

Lemma write_all_open (chunks : list (list byte)) :
  forall pdw : postgresDataWriter,
    closed pdw = false ->
    write_all pdw chunks = mkWriter (messageID pdw) (buffer pdw ++ concat chunks) false.
Proof.
  unfold write_all.
  induction chunks as [| p chunks IH]; intros pdw Hopen; cbn [fold_left concat].
  - rewrite app_nil_r. destruct pdw; cbn in *; by subst.
  - rewrite (Write_open _ _ Hopen). cbn [fst].
    rewrite IH by done. cbn. by rewrite <- app_assoc.
Qed.

Lemma Close_key (pdw : postgresDataWriter) (b : Backend) (now : Time) (key : string) :
  closed pdw = false ->
  buffer pdw <> [] ->
  varchar255 (messageID pdw) = Some key ->
  Close pdw b Executed now =
    (mkWriter (messageID pdw) (buffer pdw) true,
     with_db b
       (mkDB (<[key := upsert_row (rows (db b) !! key) (buffer pdw)
                         (Z.of_nat (length (buffer pdw))) now now]> (rows (db b)))
             (issued (db b) ++
                [Upsert (tableName b) (messageID pdw) (buffer pdw)
                   (Z.of_nat (length (buffer pdw))) now now])),
     None).
Proof.
  intros Hopen Hbuf Hkey. unfold Close, ExecContext, run_stmt. rewrite Hopen, Hkey.
  destruct (buffer pdw) as [| x l] eqn:Hb; [done |]. reflexivity.
Qed.

(** A close that is answered hands the driver its one statement, whatever
    the server makes of the identifier. *)
Lemma Close_issued (pdw : postgresDataWriter) (b : Backend) (now : Time) :
  closed pdw = false ->
  buffer pdw <> [] ->
  issued (db (Close pdw b Executed now).1.2) =
    issued (db b) ++
      [Upsert (tableName b) (messageID pdw) (buffer pdw)
         (Z.of_nat (length (buffer pdw))) now now].
Proof.
  intros Hopen Hbuf. unfold Close, ExecContext, run_stmt. rewrite Hopen.
  destruct (buffer pdw) as [| x l] eqn:Hb; [done |]. cbn [length Nat.eqb].
  by destruct (varchar255 (messageID pdw)).
Qed.

Lemma Close_empty (pdw : postgresDataWriter) (b : Backend) drv now :
  buffer pdw = [] ->
  Close pdw b drv now = (mkWriter (messageID pdw) [] true, b, None).
Proof.
  intros Hempty. unfold Close. rewrite Hempty. cbn.
  destruct pdw as [id buf [|]]; cbn in *; by subst.
Qed.

(** Writes on a handle change the writer behind the handle and nothing else. *)
Lemma run_writes (chunks : list (list byte)) :
  forall (s : System) (w : nat) (pdw : postgresDataWriter),
    writers s !! w = Some pdw ->
    run s (map (OpWrite w) chunks) =
      mkSystem (backend s) (<[w := write_all pdw chunks]> (writers s)).
Proof.
  unfold run, write_all.
  induction chunks as [| p chunks IH]; intros s w pdw Hw; cbn [map fold_left].
  - rewrite list_insert_id by done. by destruct s.
  - cbn [step]. rewrite Hw.
    erewrite IH; cbn [writers backend].
    + by rewrite list_insert_insert_eq.
    + apply list_lookup_insert_eq. by eapply lookup_lt_Some.
Qed.

Lemma run_writes_backend (chunks : list (list byte)) (w : nat) :
  forall s : System, backend (run s (map (OpWrite w) chunks)) = backend s.
Proof.
  unfold run. induction chunks as [| p chunks IH]; intros s; cbn [map fold_left]; [done |].
  rewrite IH. cbn [step]. by destruct (writers s !! w).
Qed.

(** C6, as stated, fails. On a table that holds "old" under "m1", a writer
    for "m1" is given two empty chunks and closed: the backend is as before,
    no statement has been handed to the driver, and a fetch still delivers
    "old", not the (empty) concatenation of the chunks. And a writer for the
    identifier of 255 letters and a space, given "abc" and closed, leaves a
    row that the fetch of that identifier does not find. *)
Lemma close_always_commits_fails :
  let s :=
    mkSystem (mkBackend (mkDB {["m1" := mkRow (list_byte_of_string "old") 3 1 1]} []) "t1") [] in
  let chunks : list (list byte) := [[]; []] in
  let after := step (run (step s (OpGetDataWriter "m1")) (map (OpWrite 0) chunks))
                 (OpClose 0 Executed 9) in
  let padded :=
    step (run (step s (OpGetDataWriter padded_id)) [OpWrite 0 (list_byte_of_string "abc")])
      (OpClose 0 Executed 9) in
  backend after = backend s /\
  issued (db (backend after)) = [] /\
  (GetDataReader (backend after) None "m1").2 =
    (Some (mkBytesReadCloser (list_byte_of_string "old") 0), None) /\
  (GetDataReader (backend padded) None padded_id).2 =
    (None, Some (errorString ("data for message " +:+ padded_id +:+ " not found"))) /\
  ~ close_always_commits.
Proof.
  cbn zeta.
  split; [vm_compute; reflexivity |].
  split; [vm_compute; reflexivity |].
  split; [vm_compute; reflexivity |].
  split; [vm_compute; reflexivity |].
  intros Hclaim.
  destruct (Hclaim
              (mkSystem
                 (mkBackend (mkDB {["m1" := mkRow (list_byte_of_string "old") 3 1 1]} []) "t1")
                 [])
              "m1" [[]; []] 9) as [Hissued _].
  vm_compute in Hissued. discriminate Hissued.
Qed.

(** C6, amended. Writes hand nothing to the backend: after any number of
    them the backend is as it was when the writer was opened. Closing the
    writer, when the chunks written hold at least one byte, hands the driver
    exactly one statement, the upsert of their concatenation in the order
    written; when the identifier has at most 255 characters, the row under it
    is then the one that upsert leaves, and that concatenation is what a fetch
    delivers. When the chunks hold no byte, closing leaves the backend as it
    was. *)
Theorem writer_commits_on_close (s : System) (id : string) (chunks : list (list byte))
    (now : Time) :
  let w := length (writers s) in
  let opened := step s (OpGetDataWriter id) in
  let after := step (run opened (map (OpWrite w) chunks)) (OpClose w Executed now) in
  let payload := concat chunks in
  (forall k : nat, backend (run opened (map (OpWrite w) (take k chunks))) = backend s) /\
  (payload <> [] ->
   issued (db (backend after)) =
     issued (db (backend s)) ++
       [Upsert (tableName (backend s)) id payload (Z.of_nat (length payload)) now now] /\
   (fits_varchar255 id = true ->
    rows (db (backend after)) =
      <[id := upsert_row (rows (db (backend s)) !! id) payload
                (Z.of_nat (length payload)) now now]> (rows (db (backend s))) /\
    (GetDataReader (backend after) None id).2 = (Some (mkBytesReadCloser payload 0), None))) /\
  (payload = [] -> backend after = backend s).
Proof.
  cbn zeta.
  split; [intros k; by rewrite run_writes_backend |].
  assert (writers (step s (OpGetDataWriter id)) !! length (writers s)
          = Some (mkWriter id [] false)) as Hw.
  { cbn. rewrite lookup_app_r by done. by rewrite Nat.sub_diag. }
  rewrite (run_writes chunks _ _ _ Hw).
  rewrite write_all_open by done. cbn [messageID buffer app step backend writers].
  assert (length (writers s) < length (writers s ++ [mkWriter id [] false]))%nat as Hlt
    by (rewrite length_app; cbn; lia).
  rewrite (list_lookup_insert_eq _ _ _ Hlt).
  split.
  - intros Hpayload. split.
    + pose proof (Close_issued (mkWriter id (concat chunks) false) (backend s) now
                    eq_refl Hpayload) as Hissued.
      by destruct (Close _ (backend s) Executed now) as [[pdw' b'] err].
    + intros Hfits.
      rewrite (Close_key _ _ _ id) by (done || by apply varchar255_fits).
      cbn [messageID buffer backend db rows issued with_db tableName].
      split; [done |].
      erewrite GetDataReader_found by (cbn; apply lookup_insert_eq).
      cbn [snd]. by destruct (rows (db (backend s)) !! id).
  - intros Hpayload. by rewrite Close_empty.
Qed.

Lemma writer_commits_on_close_witness :
  let chunks := [list_byte_of_string "abc"; list_byte_of_string "def"] in
  let s := initial "t1" in
  let after := step (run (step s (OpGetDataWriter "m1")) (map (OpWrite 0) chunks))
                 (OpClose 0 Executed 4) in
  concat chunks <> [] /\
  fits_varchar255 "m1" = true /\
  issued (db (backend after)) = [Upsert "t1" "m1" (list_byte_of_string "abcdef") 6 4 4] /\
  (GetDataReader (backend after) None "m1").2 =
    (Some (mkBytesReadCloser (list_byte_of_string "abcdef") 0), None).
Proof.
  assert (concat [list_byte_of_string "abc"; list_byte_of_string "def"] <> []) as Hne
    by discriminate.
  split; [exact Hne |]. split; [reflexivity |].
  destruct (writer_commits_on_close (initial "t1") "m1"
              [list_byte_of_string "abc"; list_byte_of_string "def"] 4)
    as (_ & Hcommit & _).
  destruct (Hcommit Hne) as (Hissued & Hrow).
  destruct (Hrow eq_refl) as (_ & Hfetch).
  split; [exact Hissued | exact Hfetch].
Defined.

(** C7. A writer that has been closed, whatever that close did, refuses
    every later write with the error "writer is closed" and takes in nothing,
    and every later close returns no error and touches neither the writer nor
    the backend. *)
Theorem closed_writer_rejects_writes (pdw : postgresDataWriter) (b : Backend)
    (drv : Answer) (now : Time) :
  let pdw' := (Close pdw b drv now).1.1 in
  closed pdw' = true /\
  (forall p : list byte, Write pdw' p = (pdw', (0, Some (errorString "writer is closed")))) /\
  (forall (b2 : Backend) (drv2 : Answer) (now2 : Time),
     Close pdw' b2 drv2 now2 = (pdw', b2, None)).
Proof.
  cbn zeta. pose proof (Close_closes pdw b drv now) as Hclosed.
  split; [done |]. split.
  - intros p. by apply Write_closed.
  - intros b2 drv2 now2. by apply Close_closed.
Qed.

(** C8. Closing a writer whose buffer is empty returns no error and leaves
    the backend, rows and statements handed to the driver alike, exactly as
    it was, whatever the driver would have answered. *)
Theorem close_empty_writer (pdw : postgresDataWriter) (b : Backend)
    (drv : Answer) (now : Time) :
  buffer pdw = [] ->
  Close pdw b drv now = (mkWriter (messageID pdw) [] true, b, None).
Proof. apply Close_empty. Qed.

Lemma close_empty_writer_witness :
  let b := mkBackend (mkDB {["m1" := mkRow (list_byte_of_string "old") 3 1 1]} []) "t1" in
  buffer (GetDataWriter b "m1").1 = [] /\
  Close (GetDataWriter b "m1").1 b (Failed (foreignError "connection refused")) 9 =
    (mkWriter "m1" [] true, b, None).
Proof.
  split; [reflexivity |].
  exact (close_empty_writer
           (GetDataWriter
              (mkBackend (mkDB {["m1" := mkRow (list_byte_of_string "old") 3 1 1]} []) "t1")
              "m1").1
           (mkBackend (mkDB {["m1" := mkRow (list_byte_of_string "old") 3 1 1]} []) "t1")
           (Failed (foreignError "connection refused")) 9 eq_refl).
Defined.

(** ** Empty payloads and failing sources *)

(** C9, as stated, fails. Under the identifier of 255 letters and a space
    the store of an empty payload returns 0 and no error, and the fetch of
    that identifier answers as for an identifier that was never stored. *)
Lemma empty_payload_is_fetched_fails :
  let stored := StoreData (created_backend "t1") Executed 5 padded_id [([], Some EOF)] in
  stored.2 = (0, None) /\
  (GetDataReader stored.1 None padded_id).2 =
    (None, Some (errorString ("data for message " +:+ padded_id +:+ " not found"))) /\
  ~ empty_payload_is_fetched.
Proof.
  cbn zeta.
  split; [vm_compute; reflexivity |].
  split; [vm_compute; reflexivity |].
  intros Hclaim.
  destruct (Hclaim (created_backend "t1") 5 padded_id [([], Some EOF)] eq_refl)
    as [_ Hfetch].
  vm_compute in Hfetch. discriminate Hfetch.
Qed.

(** C9, amended. Storing an empty payload under an identifier of at most
    255 characters reports 0 without an error and leaves, under the
    identifier, a row whose [data] is empty and whose [size] is 0 (a new row,
    or the old one with its [created] kept); fetching the identifier then
    succeeds and delivers no byte. An identifier without a row is answered
    otherwise, with the not-found error and no reader: so is this one before
    the store if it had no row, and so is it again once the row is
    deleted. *)
Theorem store_empty_payload (b : Backend) (now : Time) (id : string) (src : Reader)
    (room : nat -> nat) (extra : nat) :
  fits_varchar255 id = true ->
  ReadAll src = ([], None) ->
  let stored := StoreData b Executed now id src in
  let fetched := GetDataReader stored.1 None id in
  let notFound := Errorf ("data for message " +:+ id +:+ " not found") in
  stored.2 = (0, None) /\
  rows (db stored.1) !! id = Some (upsert_row (rows (db b) !! id) [] 0 now now) /\
  data (upsert_row (rows (db b) !! id) [] 0 now now) = [] /\
  size (upsert_row (rows (db b) !! id) [] 0 now now) = 0 /\
  (exists brc,
     fetched.2 = (Some brc, None) /\
     ReadAllFrom (S extra) room 0 brc = Some ([], None)) /\
  (rows (db b) !! id = None -> (GetDataReader b None id).2 = (None, Some notFound)) /\
  (GetDataReader (DeleteData fetched.1 Executed None id).1 None id).2 = (None, Some notFound).
Proof.
  intros Hfits Hsrc. cbn zeta. rewrite (StoreData_ok _ _ _ _ _ Hsrc Hfits).
  cbn [fst snd length Z.of_nat db rows with_db].
  rewrite lookup_insert_eq.
  destruct (upsert_row_data (rows (db b) !! id) [] 0 now now) as (Hd & Hs & _).
  erewrite GetDataReader_found by (cbn; apply lookup_insert_eq).
  cbn [fst snd].
  split; [done |]. split; [done |]. split; [done |]. split; [done |]. split; [| split].
  - eexists; split; [done |]. change (Z.of_nat 0) with 0. rewrite Hd.
    apply (ReadAllFrom_all room [] extra).
  - intros Habsent. by rewrite (GetDataReader_absent _ _ Habsent).
  - erewrite DeleteData_present by (cbn; apply lookup_insert_eq).
    cbn [fst]. by rewrite GetDataReader_absent by (cbn; apply lookup_delete_eq).
Qed.

Lemma store_empty_payload_witness :
  let b := created_backend "t1" in
  let stored := StoreData b Executed 5 "m1" [([], Some EOF)] in
  fits_varchar255 "m1" = true /\
  ReadAll [([], Some EOF)] = ([], None) /\
  stored.2 = (0, None) /\
  rows (db stored.1) !! "m1" = Some (mkRow [] 0 5 5) /\
  (exists brc,
     (GetDataReader stored.1 None "m1").2 = (Some brc, None) /\
     ReadAllFrom 1 (fun _ => 511%nat) 0 brc = Some ([], None)) /\
  (GetDataReader b None "m1").2 =
    (None, Some (errorString "data for message m1 not found")).
Proof.
  split; [reflexivity |]. split; [reflexivity |].
  destruct (store_empty_payload (created_backend "t1") 5 "m1" [([], Some EOF)]
              (fun _ => 511%nat) 0 eq_refl eq_refl)
    as (Hret & Hrow & _ & _ & Hfetch & Habsent & _).
  split; [exact Hret |]. split; [exact Hrow |]. split; [exact Hfetch |].
  exact (Habsent eq_refl).
Defined.

(** C10. When reading the payload source fails, [StoreData] returns 0 and
    the error, wrapped; the backend is exactly as before: no row has changed
    and no statement has been handed to the driver. *)
Theorem store_failing_source (b : Backend) (drv : Answer) (now : Time) (id : string)
    (src : Reader) (p : list byte) (e : error) :
  ReadAll src = (p, Some e) ->
  StoreData b drv now id src =
    (b, (0, Some (wrapError ("failed to read data: " +:+ Error e) e))).
Proof. intros Hsrc. unfold StoreData. by rewrite Hsrc. Qed.

Lemma store_failing_source_witness :
  let b := mkBackend (mkDB {["m1" := mkRow (list_byte_of_string "old") 3 1 1]} []) "t1" in
  let src : Reader :=
    [(list_byte_of_string "ne", None); ([], Some (foreignError "unexpected EOF"))] in
  ReadAll src = (list_byte_of_string "ne", Some (foreignError "unexpected EOF")) /\
  StoreData b Executed 9 "m1" src =
    (b, (0, Some (wrapError "failed to read data: unexpected EOF"
                    (foreignError "unexpected EOF")))).
Proof.
  split; [reflexivity |].
  exact (store_failing_source
           (mkBackend (mkDB {["m1" := mkRow (list_byte_of_string "old") 3 1 1]} []) "t1")
           Executed 9 "m1"
           [(list_byte_of_string "ne", None); ([], Some (foreignError "unexpected EOF"))]
           (list_byte_of_string "ne") (foreignError "unexpected EOF") eq_refl).
Defined.

(** A source fails exactly when one of its reads returns an error other than
    [io.EOF] before any read has returned [io.EOF]. *)
Lemma ReadAll_never_EOF (src : Reader) : (ReadAll src).2 <> Some EOF.
Proof.
  induction src as [| [p [e |]] src IH]; cbn; [done | |].
  - by destruct e.
  - by destruct (ReadAll src).
Qed.

(** ** The scenario of the specification, run on the model *)

Example end_to_end :
  let hello : Reader := [(list_byte_of_string "hello", Some EOF)] in
  let hi : Reader := [(list_byte_of_string "hi", Some EOF)] in
  let b0 := created_backend "t1" in
  let s1 := StoreData b0 Executed 1 "m1" hello in
  let f1 := GetDataReader s1.1 None "m1" in
  let s2 := StoreData f1.1 Executed 2 "m1" hi in
  let f2 := GetDataReader s2.1 None "m1" in
  let d := DeleteData f2.1 Executed None "m1" in
  let f3 := GetDataReader d.1 None "m1" in
  s1.2 = (5, None) /\
  f1.2 = (Some (mkBytesReadCloser (list_byte_of_string "hello") 0), None) /\
  s2.2 = (2, None) /\
  f2.2 = (Some (mkBytesReadCloser (list_byte_of_string "hi") 0), None) /\
  d.2 = None /\
  f3.2 = (None, Some (errorString "data for message m1 not found")).
Proof. vm_compute. repeat split. Qed.

(** * Further properties *)

(** ** Reading in buffers of any size *)

Lemma Reads_cons (brc : bytesReadCloser) (lenp : nat) (sizes : list nat) :
  Reads brc (lenp :: sizes) =
    ((Reads (Read brc lenp).1 sizes).1, (Read brc lenp).2 :: (Reads (Read brc lenp).1 sizes).2).
Proof.
  cbn [Reads]. destruct (Read brc lenp) as [brc1 res]. cbn [fst snd].
  by destruct (Reads brc1 sizes).
Qed.

Lemma Read_next (d : list byte) (off lenp : nat) :
  Read (mkBytesReadCloser d off) lenp =
    (mkBytesReadCloser d (off + length (take lenp (drop off d))),
     (take lenp (drop off d),
      if (length d <=? off)%nat then Some EOF else None)).
Proof.
  unfold Read; cbn [brc_data offset].
  destruct (Nat.leb_spec (length d) off) as [Hend | Hin]; [| done].
  rewrite drop_ge by done. rewrite take_nil. cbn. by rewrite Nat.add_0_r.
Qed.

(** X1. Successive reads, with buffers of any sizes, deliver the stored
    bytes in order and without gaps: together they are the first bytes after
    the starting offset, as many as the buffers hold room for and the data
    has left; the offset ends right after them and the data is untouched. *)
Theorem reads_deliver_in_order (sizes : list nat) :
  forall (d : list byte) (off : nat),
    let '(brc', results) := Reads (mkBytesReadCloser d off) sizes in
    concat (map fst results) = take (sum_list sizes) (drop off d) /\
    brc' = mkBytesReadCloser d (off + length (take (sum_list sizes) (drop off d))) /\
    length results = length sizes.
Proof.
  induction sizes as [| lenp sizes IH]; intros d off.
  - cbn. rewrite take_0. cbn. by rewrite Nat.add_0_r.
  - rewrite Reads_cons, Read_next. cbn [fst snd].
    specialize (IH d (off + length (take lenp (drop off d)))%nat).
    destruct (Reads _ sizes) as [brc' results]. cbn [fst snd].
    destruct IH as (Hbytes & -> & Hlen).
    cbn [map fst concat sum_list sum_list_with length].
    change (id lenp) with lenp.
    rewrite Hbytes, Hlen.
    assert (take lenp (drop off d)
              ++ take (sum_list sizes) (drop (off + length (take lenp (drop off d)))%nat d)
            = take (lenp + sum_list sizes)%nat (drop off d)) as Hjoin.
    { rewrite <- drop_drop. generalize (drop off d) as l. intros l.
      destruct (Nat.le_gt_cases lenp (length l)) as [Hle | Hgt].
      - rewrite length_take, Nat.min_l by done. apply take_take_drop.
      - rewrite (take_ge l lenp) by lia.
        rewrite drop_ge by lia. rewrite take_nil, app_nil_r.
        by rewrite take_ge by lia. }
    split; [done |]. split; [| done].
    rewrite <- Hjoin, length_app, Nat.add_assoc. done.
Qed.

(** X2. Once a [Read] has returned [io.EOF], every later [Read], whatever
    its buffer, returns no byte and [io.EOF] again, and the reader does not
    move. *)
Theorem reads_after_EOF (brc : bytesReadCloser) (lenp : nat) (sizes : list nat) :
  (Read brc lenp).2.2 = Some EOF ->
  (Read brc lenp).2.1 = [] /\
  Reads (Read brc lenp).1 sizes = (brc, map (fun _ => ([], Some EOF)) sizes).
Proof.
  destruct brc as [d off]. unfold Read; cbn [brc_data offset].
  destruct (Nat.leb_spec (length d) off) as [Hend | Hin]; cbn [fst snd]; [| discriminate].
  intros _. split; [done |].
  induction sizes as [| n sizes IH]; [done |].
  rewrite Reads_cons, Read_at_end by done. cbn [fst snd map]. by rewrite IH.
Qed.

Lemma reads_after_EOF_witness :
  let brc := mkBytesReadCloser (list_byte_of_string "hi") 2 in
  (Read brc 8).2.2 = Some EOF /\
  Reads (Read brc 8).1 [4; 0; 1]%nat =
    (brc, [([], Some EOF); ([], Some EOF); ([], Some EOF)]).
Proof.
  split; [reflexivity |].
  exact (proj2 (reads_after_EOF (mkBytesReadCloser (list_byte_of_string "hi") 2) 8
                  [4; 0; 1]%nat eq_refl)).
Defined.

(** X3. A [Read] into an empty buffer, while bytes are left, returns 0 and
    no error and leaves the reader where it is: reads into empty buffers,
    however many, never reach [io.EOF]. *)
Theorem reads_into_empty_buffers (d : list byte) (off n : nat) :
  (off < length d)%nat ->
  Reads (mkBytesReadCloser d off) (repeat 0%nat n) =
    (mkBytesReadCloser d off, repeat ([], None) n).
Proof.
  intros Hin. induction n as [| n IH]; [done |].
  cbn [repeat]. rewrite Reads_cons, Read_inside by done.
  rewrite take_0, Nat.min_0_l, Nat.add_0_r. cbn [fst snd]. by rewrite IH.
Qed.

Lemma reads_into_empty_buffers_witness :
  (1 < length (list_byte_of_string "hi"))%nat /\
  Reads (mkBytesReadCloser (list_byte_of_string "hi") 1) [0; 0]%nat =
    (mkBytesReadCloser (list_byte_of_string "hi") 1, [([], None); ([], None)]).
Proof.
  split; [cbn; lia |].
  apply (reads_into_empty_buffers (list_byte_of_string "hi") 1 2). cbn; lia.
Defined.

Lemma ReadAll_Reads (sizes : list nat) :
  forall (d : list byte) (off : nat),
    Forall (fun lenp => 0 < lenp)%nat sizes ->
    (length d - off < length sizes)%nat ->
    ReadAll (Reads (mkBytesReadCloser d off) sizes).2 = (drop off d, None).
Proof.
  induction sizes as [| lenp sizes IH]; intros d off Hpos Hfuel; [cbn in Hfuel; lia |].
  apply Forall_cons in Hpos as [Hlenp Hpos]. cbn [length] in Hfuel.
  rewrite Reads_cons. cbn [snd].
  destruct (Nat.le_gt_cases (length d) off) as [Hend | Hin].
  - rewrite Read_at_end by done. cbn. by rewrite drop_ge.
  - rewrite Read_inside by done. cbn [fst snd ReadAll].
    rewrite IH; [| done | lia].
    f_equal.
    rewrite <- (take_drop lenp (drop off d)) at 2.
    f_equal. rewrite drop_drop.
    destruct (Nat.le_gt_cases lenp (length d - off)).
    + by rewrite Nat.min_l.
    + rewrite Nat.min_r by lia. rewrite !drop_ge; [done | lia | lia].
Qed.

(** X4. A fetched reader can be the payload source of [StoreData]: read by
    [io.ReadAll] in buffers that are never empty, it delivers the whole
    payload, so the copy stored under another identifier, of at most 255
    characters, has the same bytes and the count returned is their number. *)
Theorem copy_through_reader (b : Backend) (now : Time) (id id2 : string) (r : Row)
    (sizes : list nat) :
  rows (db b) !! id = Some r ->
  fits_varchar255 id2 = true ->
  Forall (fun lenp => 0 < lenp)%nat sizes ->
  (length (data r) < length sizes)%nat ->
  exists brc,
    (GetDataReader b None id).2 = (Some brc, None) /\
    let copied :=
      StoreData (GetDataReader b None id).1 Executed now id2 (Reads brc sizes).2 in
    copied.2 = (Z.of_nat (length (data r)), None) /\
    data <$> rows (db copied.1) !! id2 = Some (data r).
Proof.
  intros Hrow Hfits Hpos Hfuel.
  rewrite (GetDataReader_found _ _ _ Hrow). cbn [fst snd].
  eexists; split; [done |]. cbn zeta.
  assert (ReadAll (Reads (mkBytesReadCloser (data r) 0) sizes).2 = (data r, None)) as Hsrc
    by (rewrite ReadAll_Reads; [done | done | lia]).
  rewrite (StoreData_ok _ _ _ _ _ Hsrc Hfits). cbn [fst snd db rows with_db].
  split; [done |]. rewrite lookup_insert_eq. cbn.
  by destruct (upsert_row_data (rows (db b) !! id2) (data r)
                 (Z.of_nat (length (data r))) now now) as [-> _].
Qed.

Lemma copy_through_reader_witness :
  let b := mkBackend (mkDB {["m1" := mkRow (list_byte_of_string "old") 3 1 1]} []) "t1" in
  exists brc,
    (GetDataReader b None "m1").2 = (Some brc, None) /\
    let copied :=
      StoreData (GetDataReader b None "m1").1 Executed 8 "m2"
        (Reads brc [2; 2; 5; 1]%nat).2 in
    copied.2 = (3, None) /\
    data <$> rows (db copied.1) !! "m2" = Some (list_byte_of_string "old").
Proof.
  apply (copy_through_reader
           (mkBackend (mkDB {["m1" := mkRow (list_byte_of_string "old") 3 1 1]} []) "t1")
           8 "m1" "m2" (mkRow (list_byte_of_string "old") 3 1 1) [2; 2; 5; 1]%nat).
  - vm_compute; reflexivity.
  - reflexivity.
  - repeat constructor.
  - cbn; lia.
Defined.

(** ** Failures of the driver *)


(** X6. [Close] marks the writer closed whatever becomes of its upsert.
    When the upsert fails, the error returned wraps the driver's; a second
    [Close] then returns no error, hands the driver nothing and leaves the
    backend it is given as it is, and writes are refused: the writer does
    not try again to store its buffer. *)
Theorem close_failure_is_final (pdw : postgresDataWriter) (b : Backend) (drv : Answer)
    (now : Time) :
  closed pdw = false ->
  buffer pdw <> [] ->
  let '(pdw1, b1, err) := Close pdw b drv now in
  match drv with
  | Executed => True
  | NotSent e | Failed e | FailedAfter e =>
      err = Some (wrapError (("failed to store data for message " +:+ messageID pdw +:+ ": ")
                               +:+ Error e) e)
  end /\
  pdw1 = mkWriter (messageID pdw) (buffer pdw) true /\
  (forall (b2 : Backend) (drv2 : Answer) (now2 : Time),
     Close pdw1 b2 drv2 now2 = (pdw1, b2, None)) /\
  (forall p : list byte, (Write pdw1 p).1 = pdw1 /\ (Write pdw1 p).2.2 <> None).
Proof.
  intros Hopen Hbuf. unfold Close. rewrite Hopen.
  destruct (buffer pdw) as [| x l] eqn:Hb; [done |].
  cbn [length Nat.eqb]. unfold ExecContext, run_stmt.
  destruct drv as [| e | e | e]; try destruct (varchar255 (messageID pdw));
    repeat split; discriminate.
Qed.

Lemma close_failure_is_final_witness :
  let pdw := mkWriter "m1" (list_byte_of_string "abc") false in
  let b := created_backend "t1" in
  let closing := Close pdw b (FailedAfter (foreignError "connection reset")) 4 in
  closed pdw = false /\ buffer pdw <> [] /\
  closing.1.1 = mkWriter "m1" (list_byte_of_string "abc") true /\
  closing.2 = Some (wrapError "failed to store data for message m1: connection reset"
                      (foreignError "connection reset")) /\
  Close closing.1.1 closing.1.2 Executed 5 = (closing.1.1, closing.1.2, None).
Proof.
  assert (buffer (mkWriter "m1" (list_byte_of_string "abc") false) <> []) as Hbuf
    by discriminate.
  split; [reflexivity |]. split; [exact Hbuf |].
  pose proof (close_failure_is_final (mkWriter "m1" (list_byte_of_string "abc") false)
                (created_backend "t1") (FailedAfter (foreignError "connection reset")) 4
                eq_refl Hbuf) as Hfinal.
  cbn zeta.
  destruct (Close (mkWriter "m1" (list_byte_of_string "abc") false) (created_backend "t1")
              (FailedAfter (foreignError "connection reset")) 4) as [[pdw1 b1] err].
  destruct Hfinal as (Herr & Hpdw & Hagain & _).
  split; [exact Hpdw |]. split; [exact Herr |]. apply Hagain.
Defined.

(** X7. When the driver executes the delete but [RowsAffected] fails,
    [DeleteData] returns an error that wraps the driver's and is not the
    not-found error, and the row is gone all the same. *)
Theorem delete_rows_affected_failure (b : Backend) (id : string) (e : error) :
  let deleted := DeleteData b Executed (Some e) id in
  deleted.2 = Some (wrapError ("failed to check rows affected: " +:+ Error e) e) /\
  IsNotFound (wrapError ("failed to check rows affected: " +:+ Error e) e) = false /\
  rows (db deleted.1) !! id = None /\
  forall id', id' <> id -> rows (db deleted.1) !! id' = rows (db b) !! id'.
Proof.
  cbn zeta. unfold DeleteData, ExecContext, run_stmt.
  destruct (rows (db b) !! id) as [r |] eqn:Hrow; cbn [RowsAffected fst snd db rows with_db].
  - repeat split; [apply lookup_delete_eq |].
    intros id' Hne. by rewrite lookup_delete_ne.
  - repeat split; done.
Qed.

(** ** Round trips and the life of a row *)

(** X8. Storing under an identifier of at most 255 characters that has no
    row and then deleting it gives back the table as it was, row for row. *)
Theorem store_then_delete_restores (b : Backend) (now : Time) (id : string) (src : Reader)
    (p : list byte) :
  fits_varchar255 id = true ->
  rows (db b) !! id = None ->
  ReadAll src = (p, None) ->
  let stored := StoreData b Executed now id src in
  let deleted := DeleteData stored.1 Executed None id in
  stored.2 = (Z.of_nat (length p), None) /\
  deleted.2 = None /\
  rows (db deleted.1) = rows (db b).
Proof.
  intros Hfits Habsent Hsrc. cbn zeta. rewrite (StoreData_ok _ _ _ _ _ Hsrc Hfits).
  cbn [fst snd].
  erewrite DeleteData_present by (cbn; apply lookup_insert_eq).
  cbn [fst snd db rows with_db]. repeat split.
  rewrite delete_insert_eq. by apply delete_id.
Qed.

Lemma store_then_delete_restores_witness :
  let b := mkBackend (mkDB {["m1" := mkRow (list_byte_of_string "old") 3 1 1]} []) "t1" in
  let stored := StoreData b Executed 6 "m2" [(list_byte_of_string "new", Some EOF)] in
  let deleted := DeleteData stored.1 Executed None "m2" in
  stored.2 = (3, None) /\ deleted.2 = None /\ rows (db deleted.1) = rows (db b).
Proof.
  apply (store_then_delete_restores
           (mkBackend (mkDB {["m1" := mkRow (list_byte_of_string "old") 3 1 1]} []) "t1")
           6 "m2" [(list_byte_of_string "new", Some EOF)] (list_byte_of_string "new")).
  - reflexivity.
  - vm_compute; reflexivity.
  - reflexivity.
Defined.

(** X9. A row, under an identifier of at most 255 characters, that is
    deleted and stored again is a new row: [created] is the time of the new
    store, not the one of the row deleted, whereas a store over a row that is
    there keeps its [created]. *)
Theorem delete_then_store_is_new_row (b : Backend) (drvRows : option error) (now : Time)
    (id : string) (src : Reader) (p : list byte) :
  fits_varchar255 id = true ->
  ReadAll src = (p, None) ->
  let deleted := DeleteData b Executed drvRows id in
  let stored := StoreData deleted.1 Executed now id src in
  rows (db stored.1) !! id = Some (mkRow p (Z.of_nat (length p)) now now) /\
  forall r, rows (db b) !! id = Some r ->
    rows (db (StoreData b Executed now id src).1) !! id
      = Some (mkRow p (Z.of_nat (length p)) (created r) now).
Proof.
  intros Hfits Hsrc. cbn zeta. rewrite !(StoreData_ok _ _ _ _ _ Hsrc Hfits).
  cbn [fst snd db rows with_db].
  rewrite !lookup_insert_eq. split.
  - assert (rows (db (DeleteData b Executed drvRows id).1) !! id = None) as ->; [| done].
    unfold DeleteData, ExecContext, run_stmt.
    destruct (rows (db b) !! id) as [r |] eqn:Hrow; destruct drvRows; cbn;
      try apply lookup_delete_eq; done.
  - intros r Hrow. by rewrite Hrow.
Qed.

Lemma delete_then_store_is_new_row_witness :
  let b := mkBackend (mkDB {["m1" := mkRow (list_byte_of_string "old") 3 1 1]} []) "t1" in
  let deleted := DeleteData b Executed None "m1" in
  let stored := StoreData deleted.1 Executed 9 "m1" [(list_byte_of_string "new", Some EOF)] in
  rows (db stored.1) !! "m1" = Some (mkRow (list_byte_of_string "new") 3 9 9) /\
  rows (db (StoreData b Executed 9 "m1" [(list_byte_of_string "new", Some EOF)]).1) !! "m1"
    = Some (mkRow (list_byte_of_string "new") 3 1 9).
Proof.
  destruct (delete_then_store_is_new_row
              (mkBackend (mkDB {["m1" := mkRow (list_byte_of_string "old") 3 1 1]} []) "t1")
              None 9 "m1" [(list_byte_of_string "new", Some EOF)]
              (list_byte_of_string "new") eq_refl eq_refl) as [Hnew Hkept].
  split; [exact Hnew |].
  apply (Hkept (mkRow (list_byte_of_string "old") 3 1 1)). vm_compute; reflexivity.
Defined.

(** ** Writers among other calls *)

Lemma step_writer_kept (s : System) (o : Op) (w : nat) (pdw : postgresDataWriter) :
  writers s !! w = Some pdw ->
  closes w o = false ->
  writers (step s o) !! w =
    Some match o with
         | OpWrite w' p => if (w =? w')%nat then (Write pdw p).1 else pdw
         | _ => pdw
         end.
Proof.
  intros Hw Hclose.
  destruct o as [drv now id src | drv id | id | w' p | w' drv now | drv drvRows id];
    cbn [step writers]; try done.
  - rewrite lookup_app_l; [done | by eapply lookup_lt_Some].
  - destruct (Nat.eqb_spec w w') as [<- | Hne].
    + rewrite Hw. cbn [writers]. apply list_lookup_insert_eq. by eapply lookup_lt_Some.
    + destruct (writers s !! w') as [pdw' |]; [| done].
      cbn [writers]. by rewrite list_lookup_insert_ne.
  - cbn [closes] in Hclose. apply Nat.eqb_neq in Hclose.
    destruct (writers s !! w') as [pdw' |]; [| done].
    destruct (Close pdw' (backend s) drv now) as [[pdw'' b'] err].
    cbn [writers]. by rewrite list_lookup_insert_ne.
Qed.

(** X10. Whatever else is called in between, on the backend or on other
    writers, a writer that is open and is not closed holds its buffer
    followed by exactly the bytes written through its own handle, in the
    order written. *)
Theorem writer_collects_its_writes (ops : list Op) :
  forall (s : System) (w : nat) (pdw : postgresDataWriter),
    writers s !! w = Some pdw ->
    closed pdw = false ->
    forallb (fun o => negb (closes w o)) ops = true ->
    writers (run s ops) !! w =
      Some (mkWriter (messageID pdw) (buffer pdw ++ written_to w ops) false).
Proof.
  unfold run.
  induction ops as [| o ops IH]; intros s w pdw Hw Hopen Hnoclose.
  - cbn. rewrite app_nil_r. destruct pdw; cbn in *; by subst.
  - cbn [forallb] in Hnoclose. apply andb_prop in Hnoclose as [Ho Hnoclose].
    apply negb_true_iff in Ho.
    pose proof (step_writer_kept s o w pdw Hw Ho) as Hstep.
    cbn [fold_left].
    destruct o as [drv now id src | drv id | id | w' p | w' drv now | drv drvRows id];
      try (by rewrite (IH _ _ _ Hstep Hopen Hnoclose)).
    cbn [written_to]. destruct (w =? w')%nat.
    + rewrite (Write_open _ _ Hopen) in Hstep. cbn [fst] in Hstep.
      rewrite (IH _ _ _ Hstep eq_refl Hnoclose). cbn. by rewrite app_assoc.
    + by rewrite (IH _ _ _ Hstep Hopen Hnoclose).
Qed.

Lemma writer_collects_its_writes_witness :
  let ops :=
    [OpWrite 0 (list_byte_of_string "ab");
     OpGetDataWriter "m2";
     OpWrite 1 (list_byte_of_string "xy");
     OpStoreData Executed 3 "m1" [(list_byte_of_string "other", Some EOF)];
     OpClose 1 Executed 4;
     OpWrite 0 (list_byte_of_string "cd");
     OpDeleteData Executed None "m1"] in
  let s := step (initial "t1") (OpGetDataWriter "m1") in
  writers (run s ops) !! 0%nat = Some (mkWriter "m1" (list_byte_of_string "abcd") false).
Proof.
  apply (writer_collects_its_writes
           [OpWrite 0 (list_byte_of_string "ab");
            OpGetDataWriter "m2";
            OpWrite 1 (list_byte_of_string "xy");
            OpStoreData Executed 3 "m1" [(list_byte_of_string "other", Some EOF)];
            OpClose 1 Executed 4;
            OpWrite 0 (list_byte_of_string "cd");
            OpDeleteData Executed None "m1"]
           (step (initial "t1") (OpGetDataWriter "m1")) 0 (mkWriter "m1" [] false));
    reflexivity.
Defined.

(** ** Other identifiers *)

Lemma StoreData_other (b : Backend) drv now (id id' : string) src :
  varchar255 id' <> Some id ->
  rows (db (StoreData b drv now id' src).1) !! id = rows (db b) !! id.
Proof.
  intros Hne. destruct (StoreData_rows b drv now id' src) as [-> | (key & Hkey & ->)]; [done |].
  rewrite lookup_insert_ne; [done | congruence].
Qed.

Lemma DeleteData_other (b : Backend) drv drvRows (id id' : string) :
  id <> id' ->
  rows (db (DeleteData b drv drvRows id').1) !! id = rows (db b) !! id.
Proof.
  intros Hne. destruct (DeleteData_rows b drv drvRows id') as [-> | ->]; [done |].
  by rewrite lookup_delete_ne.
Qed.

Lemma Close_other (pdw : postgresDataWriter) (b : Backend) drv now (id : string) :
  varchar255 (messageID pdw) <> Some id ->
  rows (db (Close pdw b drv now).1.2) !! id = rows (db b) !! id.
Proof.
  intros Hne. destruct (Close_rows pdw b drv now) as [-> | (key & Hkey & ->)]; [done |].
  rewrite lookup_insert_ne; [done | congruence].
Qed.

Lemma Close_messageID (pdw : postgresDataWriter) (b : Backend) drv now :
  messageID (Close pdw b drv now).1.1 = messageID pdw.
Proof.
  unfold Close. destruct (closed pdw); [done |].
  destruct (length (buffer pdw) =? 0)%nat; [done |].
  by destruct (ExecContext drv _ (db b)) as [d [n | e]].
Qed.

Lemma Write_messageID (pdw : postgresDataWriter) (p : list byte) :
  messageID (Write pdw p).1 = messageID pdw.
Proof. unfold Write. by destruct (closed pdw). Qed.

Lemma GetDataReader_same_row (b b' : Backend) drv (id : string) :
  rows (db b') !! id = rows (db b) !! id ->
  (GetDataReader b' drv id).2 = (GetDataReader b drv id).2.
Proof.
  intros Hsame. unfold GetDataReader, QueryRowScan. rewrite Hsame.
  destruct drv as [[] |]; [done .. |]. by destruct (rows (db b) !! id).
Qed.

Lemma Forall_insert_writer (P : postgresDataWriter -> Prop) (l : list postgresDataWriter)
    (w : nat) (pdw : postgresDataWriter) :
  Forall P l -> P pdw -> Forall P (<[w := pdw]> l).
Proof.
  intros Hl Hpdw. apply Forall_lookup. intros i x Hi.
  destruct (decide (w = i)) as [<- | Hne].
  - destruct (decide (w < length l)%nat) as [Hlt | Hge].
    + rewrite list_lookup_insert_eq in Hi by done. by injection Hi as <-.
    + rewrite list_insert_ge in Hi by lia. by eapply Forall_lookup_1.
  - rewrite list_lookup_insert_ne in Hi by done. by eapply Forall_lookup_1.
Qed.

Lemma step_untouched (id : string) (s : System) (o : Op) :
  Forall (fun pdw => varchar255 (messageID pdw) <> Some id) (writers s) ->
  names id o = false ->
  rows (db (backend (step s o))) !! id = rows (db (backend s)) !! id /\
  Forall (fun pdw => varchar255 (messageID pdw) <> Some id) (writers (step s o)).
Proof.
  intros Hws Hname.
  destruct o as [drv now id' src | drv id' | id' | w p | w drv now | drv drvRows id'];
    cbn [step backend writers names] in *.
  - apply bool_decide_eq_false in Hname. split; [by apply StoreData_other | done].
  - by rewrite GetDataReader_rows.
  - apply bool_decide_eq_false in Hname. split; [done |].
    apply Forall_app. split; [done |]. by apply Forall_singleton.
  - destruct (writers s !! w) as [pdw |] eqn:Hw; [| done]. cbn. split; [done |].
    apply Forall_insert_writer; [done |]. rewrite Write_messageID.
    by apply (Forall_lookup_1 _ _ _ _ Hws Hw).
  - destruct (writers s !! w) as [pdw |] eqn:Hw; [| done].
    pose proof (Forall_lookup_1 _ _ _ _ Hws Hw) as Hpdw. cbn in Hpdw.
    pose proof (Close_other pdw (backend s) drv now id Hpdw) as Hrows.
    pose proof (Close_messageID pdw (backend s) drv now) as Hid.
    destruct (Close pdw (backend s) drv now) as [[pdw' b'] err]. cbn in *.
    split; [done |]. apply Forall_insert_writer; [done | by rewrite Hid].
  - apply bool_decide_eq_false in Hname. split; [by apply DeleteData_other | done].
Qed.

(** X11. Calls that neither store under an identifier that the column
    holds as [id], nor open a writer for such an identifier, nor delete [id],
    leave the row of [id] alone (or leave it without one), whatever they do
    to other identifiers and whatever becomes of their statements, provided
    no writer for such an identifier was open before; a fetch of [id] gives
    afterwards what it gave before. For identifiers of at most 255
    characters, "held as [id]" is "equal to [id]". *)
Theorem untouched_identifier (id : string) (ops : list Op) :
  forall s : System,
    Forall (fun pdw => varchar255 (messageID pdw) <> Some id) (writers s) ->
    forallb (fun o => negb (names id o)) ops = true ->
    rows (db (backend (run s ops))) !! id = rows (db (backend s)) !! id /\
    forall drv, (GetDataReader (backend (run s ops)) drv id).2
                = (GetDataReader (backend s) drv id).2.
Proof.
  intros s Hws Hops.
  assert (rows (db (backend (run s ops))) !! id = rows (db (backend s)) !! id) as Hrows.
  { revert s Hws. unfold run.
    induction ops as [| o ops IH]; intros s Hws; [done |].
    cbn [forallb] in Hops. apply andb_prop in Hops as [Ho Hops].
    apply negb_true_iff in Ho.
    destruct (step_untouched id s o Hws Ho) as [Hstep Hws'].
    cbn [fold_left]. by rewrite (IH Hops _ Hws'). }
  split; [done |]. intros drv. by apply GetDataReader_same_row.
Qed.

Lemma untouched_identifier_witness :
  let ops :=
    [OpGetDataWriter "m2";
     OpStoreData Executed 3 "m3" [(list_byte_of_string "other", Some EOF)];
     OpWrite 0 (list_byte_of_string "xy");
     OpClose 0 (FailedAfter (foreignError "connection reset")) 4;
     OpDeleteData Executed None "m3"] in
  let s := mkSystem
             (mkBackend (mkDB {["m1" := mkRow (list_byte_of_string "old") 3 1 1]} []) "t1")
             [] in
  rows (db (backend (run s ops))) !! "m1" = rows (db (backend s)) !! "m1".
Proof.
  apply (untouched_identifier "m1"
           [OpGetDataWriter "m2";
            OpStoreData Executed 3 "m3" [(list_byte_of_string "other", Some EOF)];
            OpWrite 0 (list_byte_of_string "xy");
            OpClose 0 (FailedAfter (foreignError "connection reset")) 4;
            OpDeleteData Executed None "m3"]
           (mkSystem
              (mkBackend (mkDB {["m1" := mkRow (list_byte_of_string "old") 3 1 1]} []) "t1")
              [])).
  - constructor.
  - vm_compute; reflexivity.
Defined.

(** The cut of the column matters here: a store under the identifier of 255
    letters and a space writes the row of its first 255 letters. *)
Example store_under_padded_id :
  let s :=
    mkSystem
      (mkBackend
         (mkDB {[string_of_list_ascii (repeat "a"%char 255)
                   := mkRow (list_byte_of_string "old") 3 1 1]} []) "t1") [] in
  data <$> rows (db (backend (step s (OpStoreData Executed 9 padded_id
                                        [(list_byte_of_string "new", Some EOF)]))))
             !! string_of_list_ascii (repeat "a"%char 255)
    = Some (list_byte_of_string "new").
Proof. vm_compute; reflexivity. Qed.

(** ** Timestamps *)

Lemma timestamps_ordered_later (t t' : Time) (m : gmap string Row) :
  t <= t' -> timestamps_ordered t m -> timestamps_ordered t' m.
Proof. intros Hle Hm id r Hrow. destruct (Hm id r Hrow). lia. Qed.

Lemma timestamps_ordered_upsert (t now : Time) (m : gmap string Row) (id : string)
    (d : list byte) (sz : Z) :
  t <= now ->
  timestamps_ordered t m ->
  timestamps_ordered now (<[id := upsert_row (m !! id) d sz now now]> m).
Proof.
  intros Hle Hm id' r'. destruct (decide (id = id')) as [<- | Hne].
  - rewrite lookup_insert_eq. intros [= <-].
    destruct (m !! id) as [r |] eqn:Hrow; cbn; [| lia].
    destruct (Hm id r Hrow). lia.
  - rewrite lookup_insert_ne by done. intros Hrow. destruct (Hm id' r' Hrow). lia.
Qed.

Lemma timestamps_ordered_delete (t : Time) (m : gmap string Row) (id : string) :
  timestamps_ordered t m -> timestamps_ordered t (delete id m).
Proof.
  intros Hm id' r'. destruct (decide (id = id')) as [<- | Hne].
  - by rewrite lookup_delete_eq.
  - rewrite lookup_delete_ne by done. apply Hm.
Qed.

Lemma StoreData_timestamps (b : Backend) drv (t now : Time) id src :
  t <= now ->
  timestamps_ordered t (rows (db b)) ->
  timestamps_ordered now (rows (db (StoreData b drv now id src).1)).
Proof.
  intros Hle Hb. destruct (StoreData_rows b drv now id src) as [-> | (key & _ & ->)].
  - by eapply timestamps_ordered_later.
  - by eapply timestamps_ordered_upsert.
Qed.

Lemma Close_timestamps (pdw : postgresDataWriter) (b : Backend) drv (t now : Time) :
  t <= now ->
  timestamps_ordered t (rows (db b)) ->
  timestamps_ordered now (rows (db (Close pdw b drv now).1.2)).
Proof.
  intros Hle Hb. destruct (Close_rows pdw b drv now) as [-> | (key & _ & ->)].
  - by eapply timestamps_ordered_later.
  - by eapply timestamps_ordered_upsert.
Qed.

Lemma DeleteData_timestamps (b : Backend) drv drvRows (t : Time) id :
  timestamps_ordered t (rows (db b)) ->
  timestamps_ordered t (rows (db (DeleteData b drv drvRows id).1)).
Proof.
  intros Hb. destruct (DeleteData_rows b drv drvRows id) as [-> | ->]; [done |].
  by apply timestamps_ordered_delete.
Qed.

Lemma run_timestamps (ops : list Op) :
  forall (s : System) (t : Time),
    timestamps_ordered t (rows (db (backend s))) ->
    clock_monotone t ops = true ->
    exists t', timestamps_ordered t' (rows (db (backend (run s ops)))).
Proof.
  unfold run.
  induction ops as [| o ops IH]; intros s t Hs Hclock; [by exists t |].
  cbn [fold_left clock_monotone] in *.
  destruct o as [drv now id src | drv id | id | w p | w drv now | drv drvRows id];
    cbn [op_time] in Hclock.
  - apply andb_prop in Hclock as [Hle Hclock]. apply Z.leb_le in Hle.
    apply (IH _ now); [| done]. cbn [step backend]. by eapply StoreData_timestamps.
  - apply (IH _ t); [| done]. cbn [step backend]. by rewrite GetDataReader_rows.
  - by apply (IH _ t).
  - apply (IH _ t); [| done]. cbn [step]. by destruct (writers s !! w).
  - apply andb_prop in Hclock as [Hle Hclock]. apply Z.leb_le in Hle.
    apply (IH _ now); [| done]. cbn [step].
    destruct (writers s !! w) as [pdw |]; [| by eapply timestamps_ordered_later].
    pose proof (Close_timestamps pdw (backend s) drv t now Hle Hs) as Hc.
    by destruct (Close pdw (backend s) drv now) as [[pdw' b'] err].
  - apply (IH _ t); [| done]. cbn [step backend]. by apply DeleteData_timestamps.
Qed.

(** X12. As long as the clock readings the calls take never go back, every
    row has [created] no later than [updated]: an insert sets both to one
    reading, and an overwrite moves [updated] only, to a reading that is not
    earlier. *)
Theorem created_not_after_updated (table : string) (t0 : Time) (ops : list Op)
    (id : string) (r : Row) :
  clock_monotone t0 ops = true ->
  rows (db (backend (run (initial table) ops))) !! id = Some r ->
  created r <= updated r.
Proof.
  intros Hclock Hrow.
  destruct (run_timestamps ops (initial table) t0) as [t' Ht']; [| done |].
  - intros id' r' Hr'. cbn in Hr'. by rewrite lookup_empty in Hr'.
  - by destruct (Ht' id r Hrow).
Qed.

Lemma created_not_after_updated_witness :
  let ops :=
    [OpStoreData Executed 2 "m1" [(list_byte_of_string "hello", Some EOF)];
     OpGetDataWriter "m1";
     OpWrite 0 (list_byte_of_string "hi");
     OpClose 0 Executed 5] in
  let r := mkRow (list_byte_of_string "hi") 2 2 5 in
  clock_monotone 0 ops = true /\
  rows (db (backend (run (initial "t1") ops))) !! "m1" = Some r /\
  created r <= updated r.
Proof.
  split; [reflexivity |]. split; [vm_compute; reflexivity |].
  apply (created_not_after_updated "t1" 0
           [OpStoreData Executed 2 "m1" [(list_byte_of_string "hello", Some EOF)];
            OpGetDataWriter "m1";
            OpWrite 0 (list_byte_of_string "hi");
            OpClose 0 Executed 5]
           "m1" (mkRow (list_byte_of_string "hi") 2 2 5)).
  - reflexivity.
  - vm_compute; reflexivity.
Defined.

(** The condition on the clock is needed: an overwrite at an earlier reading
    leaves [updated] before [created]. *)
Example clock_going_back :
  let ops :=
    [OpStoreData Executed 7 "m1" [(list_byte_of_string "hello", Some EOF)];
     OpStoreData Executed 3 "m1" [(list_byte_of_string "hi", Some EOF)]] in
  rows (db (backend (run (initial "t1") ops))) !! "m1"
    = Some (mkRow (list_byte_of_string "hi") 2 7 3).
Proof. vm_compute; reflexivity. Qed.

(** ** Statements handed to the driver *)

Local Ltac issues more := exists more; split; [by rewrite ?app_nil_r | cbn; lia].

Lemma ExecContext_issued (drv : Answer) (q : Stmt) (d : DB) :
  exists more,
    issued (ExecContext drv q d).1 = issued d ++ more /\ (length more <= 1)%nat.
Proof.
  unfold ExecContext.
  destruct drv as [| e | e | e]; [| issues (@nil Stmt) | issues [q] |];
    destruct (run_stmt q (rows d)) as [[t n] | e']; issues [q].
Qed.

Lemma step_issued (s : System) (o : Op) :
  exists more,
    issued (db (backend (step s o))) = issued (db (backend s)) ++ more /\
    (length more <= driver_calls [o])%nat.
Proof.
  destruct o as [drv now id src | drv id | id | w p | w drv now | drv drvRows id];
    cbn [step backend driver_calls].
  - unfold StoreData. destruct (ReadAll src) as [p [e |]]; [issues (@nil Stmt) |].
    pose proof (ExecContext_issued drv
                  (Upsert (tableName (backend s)) id p (Z.of_nat (length p)) now now)
                  (db (backend s))) as Hexec.
    by destruct (ExecContext drv _ (db (backend s))) as [d [n | e]].
  - unfold GetDataReader, QueryRowScan.
    destruct drv as [[] |]; [| | | | | destruct (rows (db (backend s)) !! id)];
      cbn; eexists; (split; [done |]); cbn; lia.
  - issues (@nil Stmt).
  - destruct (writers s !! w); issues (@nil Stmt).
  - destruct (writers s !! w) as [pdw |]; [| issues (@nil Stmt)].
    unfold Close. destruct (closed pdw); [issues (@nil Stmt) |].
    destruct (length (buffer pdw) =? 0)%nat; [issues (@nil Stmt) |].
    pose proof (ExecContext_issued drv
                  (Upsert (tableName (backend s)) (messageID pdw) (buffer pdw)
                     (Z.of_nat (length (buffer pdw))) now now)
                  (db (backend s))) as Hexec.
    by destruct (ExecContext drv _ (db (backend s))) as [d [n | e]].
  - unfold DeleteData.
    pose proof (ExecContext_issued drv (DeleteRow (tableName (backend s)) id)
                  (db (backend s))) as Hexec.
    destruct (ExecContext drv _ (db (backend s))) as [d [n | e]]; [| done].
    destruct (RowsAffected drvRows n) as [k | e]; [| done]. by destruct (k =? 0).
Qed.

Lemma driver_calls_cons (o : Op) (ops : list Op) :
  driver_calls (o :: ops) = (driver_calls [o] + driver_calls ops)%nat.
Proof. by destruct o. Qed.

(** X13. The statements handed to the driver only grow at the end, and by at
    most one per call of [StoreData], [GetDataReader], [Close] or
    [DeleteData]; [Write] and [GetDataWriter] hand it none. *)
Theorem one_statement_per_call (ops : list Op) :
  forall s : System,
    exists more,
      issued (db (backend (run s ops))) = issued (db (backend s)) ++ more /\
      (length more <= driver_calls ops)%nat.
Proof.
  unfold run. induction ops as [| o ops IH]; intros s.
  - issues (@nil Stmt).
  - cbn [fold_left]. destruct (IH (step s o)) as (more2 & Heq2 & Hlen2).
    destruct (step_issued s o) as (more1 & Heq1 & Hlen1).
    exists (more1 ++ more2). rewrite Heq2, Heq1, <- app_assoc. split; [done |].
    rewrite length_app, driver_calls_cons. lia.
Qed.

(** ** Factory *)

(** X14. [Create] returns either a backend and no error or an error and no
    backend. It returns a backend only when opening, the ping and the
    creation of the table all went through: the backend has the factory's
    table name, the pool was given the factory's limits and is left open,
    and the table is the one that existed, rows included, or an empty one.
    An error is the one that came back, as it came; when opening fails
    nothing is called on the pool, and when the ping or the creation of the
    table fails the pool is closed last. The statement that creates the table
    is sent only after a ping that went through. *)
Theorem Create_backend_or_error (f : Factory) (ansOpen ansPing : option error)
    (ansExec : Answer) (existing : option DB) :
  let '((backend, err), (calls, table)) := Create f ansOpen ansPing ansExec existing in
  let configured :=
    [SetMaxOpenConns (maxOpenConns f); SetMaxIdleConns (maxIdleConns f); Ping] in
  match backend, err with
  | Some b, None =>
      ansOpen = None /\ ansPing = None /\ ansExec = Executed /\
      tableName b = factoryTableName f /\
      db b = default (mkDB ∅ []) existing /\
      table = Some (db b) /\
      calls = configured ++ [ExecCreateTable (factoryTableName f)]
  | None, Some e =>
      ansOpen = Some e /\ calls = [] \/
      ansOpen = None /\ ansPing = Some e /\ calls = configured ++ [PoolClose] \/
      ansOpen = None /\ ansPing = None /\
      (ansExec = NotSent e \/ ansExec = Failed e \/ ansExec = FailedAfter e) /\
      calls = configured ++ [ExecCreateTable (factoryTableName f); PoolClose]
  | _, _ => False
  end.
Proof.
  unfold Create, createTable.
  destruct ansOpen as [e1 |]; [by left |].
  destruct ansPing as [e2 |]; [right; by left |].
  destruct ansExec as [| e3 | e3 | e3]; cbn.
  - by destruct existing.
  - right; right. repeat split. by left.
  - right; right. repeat split. right. by left.
  - right; right. repeat split. right. by right.
Qed.

Lemma fold_options_fields (opts : list FactoryOption) :
  forall f : Factory,
    let f' := fold_left apply_option opts f in
    dsn f' = dsn f /\
    factoryTableName f' = default (factoryTableName f) (last (table_names opts)) /\
    (maxOpenConns f', maxIdleConns f')
      = default (maxOpenConns f, maxIdleConns f) (last (limits opts)).
Proof.
  induction opts as [| o opts IH] using rev_ind; intros f; [done |].
  cbn zeta. rewrite fold_left_app. cbn [fold_left].
  destruct (IH f) as (Hdsn & Htable & Hlimits).
  unfold table_names, limits in *. rewrite !omap_app.
  destruct o as [t | a b]; cbn; rewrite last_snoc, app_nil_r; cbn.
  - by rewrite Hlimits.
  - by rewrite Htable.
Qed.

(** X15. However the builder methods are chained on a new factory, the
    connection string stays the one given, the table name is the one of the
    last [WithTableName] (or "retryspool_data" when there is none), the
    limits are those of the last [WithConnectionLimits] (or 25 and 5), and a
    backend created from the factory carries that table name. *)
Theorem builder_last_call_wins (connection : string) (opts : list FactoryOption)
    (existing : option DB) :
  let f := fold_left apply_option opts (NewFactory connection) in
  dsn f = connection /\
  factoryTableName f = default "retryspool_data" (last (table_names opts)) /\
  (maxOpenConns f, maxIdleConns f) = default (25, 5) (last (limits opts)) /\
  tableName <$> (Create f None None Executed existing).1.1
    = Some (default "retryspool_data" (last (table_names opts))).
Proof.
  cbn zeta. destruct (fold_options_fields opts (NewFactory connection)) as (Hdsn & Ht & Hl).
  cbn zeta in *. repeat split; try done.
  unfold Create, createTable. destruct existing; cbn; by rewrite Ht.
Qed.

(** ** Outcomes of a fetch and of a delete *)

(** X16. [GetDataReader] never changes a row and returns either a reader
    and no error or an error and no reader. It returns a reader exactly when
    the driver ran the query and the row is there; the reader then holds the
    row's bytes from their start. Its error is the not-found error exactly
    when [Scan] gave [sql.ErrNoRows]; every other error wraps the driver's. *)
Theorem fetch_reader_or_error (b : Backend) (drv : option error) (id : string) :
  let fetched := GetDataReader b drv id in
  rows (db fetched.1) = rows (db b) /\
  match fetched.2 with
  | (Some brc, None) =>
      drv = None /\ exists r, rows (db b) !! id = Some r /\ brc = mkBytesReadCloser (data r) 0
  | (None, Some err) =>
      if IsNotFound err
      then drv = None /\ rows (db b) !! id = None \/ drv = Some ErrNoRows
      else exists e, drv = Some e /\ e <> ErrNoRows /\ Unwrap err = Some e
  | _ => False
  end.
Proof.
  cbn zeta. split; [apply GetDataReader_rows |].
  unfold GetDataReader, QueryRowScan.
  destruct drv as [e |].
  - destruct e; cbn [snd]; rewrite ?IsNotFound_not_found;
      try (by right); eexists; by repeat split.
  - destruct (rows (db b) !! id) as [r |] eqn:Hrow; cbn [snd].
    + split; [done |]. by exists r.
    + rewrite IsNotFound_not_found. by left.
Qed.

(** X17. [DeleteData] returns no error exactly when the server executed
    the delete, the count was reported, and the row was there. Whenever the
    server executed the delete the identifier has no row afterwards,
    whatever is returned; when the call of the driver fails, the error
    returned wraps the one that came back. *)
Theorem delete_outcomes (b : Backend) (drv : Answer) (drvRows : option error) (id : string) :
  let deleted := DeleteData b drv drvRows id in
  (deleted.2 = None <-> drv = Executed /\ drvRows = None /\ is_Some (rows (db b) !! id)) /\
  match drv with
  | Executed => rows (db deleted.1) = delete id (rows (db b))
  | NotSent e | Failed e | FailedAfter e =>
      deleted.2 = Some (wrapError (("failed to delete data for message " +:+ id +:+ ": ")
                                     +:+ Error e) e)
  end.
Proof.
  cbn zeta. unfold DeleteData, ExecContext, run_stmt.
  destruct drv as [| e | e | e].
  - destruct (rows (db b) !! id) as [r |] eqn:Hrow; destruct drvRows as [e |];
      cbn [RowsAffected Z.eqb fst snd db rows with_db].
    + split; [| done]. split; [discriminate | by intros (_ & ? & _)].
    + split; [| done]. split; [by eauto | done].
    + split; [| by rewrite delete_id]. split; [discriminate | by intros (_ & ? & _)].
    + split; [| by rewrite delete_id].
      split; [discriminate | intros (_ & _ & [? ?]); discriminate].
  - split; [| done]. split; [discriminate | by intros [? _]].
  - split; [| done]. split; [discriminate | by intros [? _]].
  - destruct (rows (db b) !! id); (split; [| done]);
      (split; [discriminate | by intros [? _]]).
Qed.
